(** * BaseDropdown: the interaction core of the dropdown component

    A shallow embedding of the script block of
    [src/components/BaseDropdown.vue]: the reactive refs of the component
    and the parts of the document it touches are one explicit state, every
    handler is a computation over that state, and a JavaScript exception is
    an abrupt completion.  Theorems about the handlers follow the
    definitions. *)

From Stdlib Require Import ZArith String Ascii.
From stdpp Require Import base tactics option list strings.

Local Open Scope string_scope.
Local Open Scope list_scope.

(** ** JavaScript values used by the component *)

Module JS.

(** Strings are sequences of code units; the embedding covers the code
    units below 256, one [ascii] each. *)

(** White space and line terminators of [String.prototype.trim] in that
    range: TAB, LF, VT, FF, CR, SPACE and NO-BREAK SPACE. *)
Definition isWhiteSpace (c : ascii) : bool :=
  let n := nat_of_ascii c in
  ((9 <=? n) && (n <=? 13) || (n =? 32) || (n =? 160))%nat.

Fixpoint trimStart (s : string) : string :=
  match s with
  | EmptyString => EmptyString
  | String c r => if isWhiteSpace c then trimStart r else s
  end.

Fixpoint trimEnd (s : string) : string :=
  match s with
  | EmptyString => EmptyString
  | String c r =>
      match trimEnd r with
      | EmptyString => if isWhiteSpace c then EmptyString else String c EmptyString
      | r' => String c r'
      end
  end.

Definition trim (s : string) : string := trimEnd (trimStart s).

(** What a trimmed string is measured against. *)
Fixpoint allWhiteSpace (s : string) : bool :=
  match s with
  | EmptyString => true
  | String c r => isWhiteSpace c && allWhiteSpace r
  end.

Definition startsWithWhiteSpace (s : string) : bool :=
  match s with
  | EmptyString => false
  | String c _ => isWhiteSpace c
  end.

Fixpoint endsWithWhiteSpace (s : string) : bool :=
  match s with
  | EmptyString => false
  | String c EmptyString => isWhiteSpace c
  | String _ r => endsWithWhiteSpace r
  end.

(** ToBoolean on a string: only the empty string is falsy. *)
Definition truthy (s : string) : bool :=
  match s with EmptyString => false | String _ _ => true end.

Section Arrays.
Context {A : Type} `{EqDecision A}.

(** [Array.prototype.indexOf]: first position holding [x], or -1. *)
Definition indexOf (l : list A) (x : A) : Z :=
  match list_find (λ y, y = x) l with
  | Some (i, _) => Z.of_nat i
  | None => (-1)%Z
  end.

(** [Array.prototype.includes]. *)
Definition includes (l : list A) (x : A) : bool := bool_decide (x ∈ l).

(** [l[k]]: [None] stands for [undefined]. *)
Definition at_index (l : list A) (k : Z) : option A :=
  if (k <? 0)%Z then None else l !! Z.to_nat k.
End Arrays.

Inductive Exception := TypeError.

End JS.

(** ** The document *)

(** The interface an element implements, as far as [instanceof] and the
    template distinguish them. *)
Inductive Interface :=
| HTMLButtonElement
| HTMLInputElement
| HTMLLIElement
| SVGElement
| HTMLElement.

Global Instance Interface_eq_dec : EqDecision Interface.
Proof. solve_decision. Defined.

Module Element.
(** A reference to a node: [node] is its identity, the rest is what the
    component reads from it.  A node has one interface and one text while
    an event is handled, so [===] on references is equality of these
    records. *)
Record t := mk {
  node : nat;
  interface : Interface;
  textContent : string;
}.

Global Instance eq_dec : EqDecision t.
Proof. solve_decision. Defined.

Definition instanceof (e : t) (i : Interface) : bool :=
  bool_decide (interface e = i).
End Element.

Module ListItem.
(** A rendered [li] of the menu, with its descendants in document
    order. *)
Record t := mk {
  node : nat;
  descendants : list Element.t;
}.

Global Instance eq_dec : EqDecision t.
Proof. solve_decision. Defined.

(** [menuItem.querySelector('button')]: the first descendant that is a
    button, or [None] for null. *)
Definition querySelector_button (li : t) : option Element.t :=
  snd <$> list_find (λ e, Element.interface e = HTMLButtonElement)
                    (descendants li).
End ListItem.

Module Event.
(** [Event], [KeyboardEvent] and [FocusEvent] as the handlers read them;
    [key] is the empty string for an event that is not a keyboard
    event. *)
Record t := mk {
  key : string;
  target : Element.t;
}.
End Event.

(** ** Props and emits *)

Inductive Variant := regular | outlined.

Module Props.
Record t := mk {
  id : string;
  name : option string;
  modelValue : string;
  errorText : string;
  isErrorShown : bool;
  placeholder : option string;
  isRequired : bool;
  options : list string;
  isFilter : bool;
  isActiveFilter : bool;
  variant : Variant;
}.
End Props.

Inductive Emit :=
| update_modelValue (payload : string)
| principalButtonFocusIn (event : Event.t).

(** ** The state of a mounted component *)

Record State := mkState {
  (** [isMenuOpened.value] *)
  isMenuOpened : bool;
  (** [principalMenu.value] *)
  principalMenu : option Element.t;
  (** [menuItems.value] *)
  menuItems : list ListItem.t;
  (** [menuItemButtons.value] *)
  menuItemButtons : list Element.t;
  (** [document.activeElement], [None] when nothing holds the focus *)
  activeElement : option Element.t;
  (** whether [closeMenuOnOutsideClick] is registered for [click] on the
      document; registering a registered listener changes nothing *)
  clickListener : bool;
  (** callbacks handed to [setTimeout] that have not run yet *)
  timers : nat;
  (** what the component has emitted, oldest first *)
  emitted : list Emit;
  (** the canceled flag of the event being handled *)
  defaultPrevented : bool;
  (** whether the watcher waits for the next flush of the scheduler *)
  effectQueued : bool;
}.

Definition with_isMenuOpened (v : bool) (s : State) : State :=
  mkState v (principalMenu s) (menuItems s) (menuItemButtons s)
          (activeElement s) (clickListener s) (timers s) (emitted s)
          (defaultPrevented s) (effectQueued s).

Definition with_menuItems (v : list ListItem.t) (s : State) : State :=
  mkState (isMenuOpened s) (principalMenu s) v (menuItemButtons s)
          (activeElement s) (clickListener s) (timers s) (emitted s)
          (defaultPrevented s) (effectQueued s).

Definition with_menuItemButtons (v : list Element.t) (s : State) : State :=
  mkState (isMenuOpened s) (principalMenu s) (menuItems s) v
          (activeElement s) (clickListener s) (timers s) (emitted s)
          (defaultPrevented s) (effectQueued s).

Definition with_activeElement (v : option Element.t) (s : State) : State :=
  mkState (isMenuOpened s) (principalMenu s) (menuItems s) (menuItemButtons s)
          v (clickListener s) (timers s) (emitted s)
          (defaultPrevented s) (effectQueued s).

Definition with_clickListener (v : bool) (s : State) : State :=
  mkState (isMenuOpened s) (principalMenu s) (menuItems s) (menuItemButtons s)
          (activeElement s) v (timers s) (emitted s)
          (defaultPrevented s) (effectQueued s).

Definition with_timers (v : nat) (s : State) : State :=
  mkState (isMenuOpened s) (principalMenu s) (menuItems s) (menuItemButtons s)
          (activeElement s) (clickListener s) v (emitted s)
          (defaultPrevented s) (effectQueued s).

Definition with_emitted (v : list Emit) (s : State) : State :=
  mkState (isMenuOpened s) (principalMenu s) (menuItems s) (menuItemButtons s)
          (activeElement s) (clickListener s) (timers s) v
          (defaultPrevented s) (effectQueued s).

Definition with_defaultPrevented (v : bool) (s : State) : State :=
  mkState (isMenuOpened s) (principalMenu s) (menuItems s) (menuItemButtons s)
          (activeElement s) (clickListener s) (timers s) (emitted s)
          v (effectQueued s).

Definition with_effectQueued (v : bool) (s : State) : State :=
  mkState (isMenuOpened s) (principalMenu s) (menuItems s) (menuItemButtons s)
          (activeElement s) (clickListener s) (timers s) (emitted s)
          (defaultPrevented s) v.

(** ** Computations: state passing with abrupt completion *)

Inductive Completion (A : Type) : Type :=
| Normal (a : A) (s : State)
| Throw (e : JS.Exception) (s : State).
Arguments Normal {A} a s.
Arguments Throw {A} e s.

Definition M (A : Type) : Type := State → Completion A.

Global Instance M_ret : MRet M := λ A a s, Normal a s.
Global Instance M_bind : MBind M := λ A B k m s,
  match m s with
  | Normal a s' => k a s'
  | Throw e s' => Throw e s'
  end.

Definition gets {A} (f : State → A) : M A := λ s, Normal (f s) s.
Definition modify (f : State → State) : M unit := λ s, Normal tt (f s).
Definition throw {A} (e : JS.Exception) : M A := λ s, Throw e s.
Definition skip : M unit := mret tt.
Definition when (b : bool) (m : M unit) : M unit := if b then m else skip.

(** The state a computation ends in, however it completes. *)
Definition final {A} (c : Completion A) : State :=
  match c with Normal _ s => s | Throw _ s => s end.

Definition returns {A} (c : Completion A) : bool :=
  match c with Normal _ _ => true | Throw _ _ => false end.

(** [l.forEach(f)] *)
Fixpoint forEach {A} (l : list A) (f : A → M unit) : M unit :=
  match l with
  | [] => skip
  | x :: l' => f x ;; forEach l' f
  end.

(** ** Browser and framework primitives the script calls *)

(** [element.focus()] *)
Definition focus (e : Element.t) : M unit :=
  modify (with_activeElement (Some e)).

(** [event.preventDefault()] *)
Definition preventDefault : M unit :=
  modify (with_defaultPrevented true).

(** [emits(...)] *)
Definition emits (e : Emit) : M unit :=
  modify (λ s, with_emitted (emitted s ++ [e]) s).

(** [document.addEventListener('click', closeMenuOnOutsideClick)] *)
Definition document_addEventListener : M unit :=
  modify (with_clickListener true).

(** [document.removeEventListener('click', closeMenuOnOutsideClick)] *)
Definition document_removeEventListener : M unit :=
  modify (with_clickListener false).

(** [setTimeout(callback)]: the callback waits for a later task. *)
Definition setTimeout : M unit :=
  modify (λ s, with_timers (S (timers s)) s).

(** Assignment to [isMenuOpened.value]: a ref queues its watchers only
    when the value changes. *)
Definition isMenuOpened_set (v : bool) : M unit :=
  modify (λ s,
    if bool_decide (isMenuOpened s = v) then s
    else with_effectQueued true (with_isMenuOpened v s)).

(** [menuItemButtons.value[k].focus()]: a TypeError when the slot is
    undefined. *)
Definition menuItemButtons_focus (k : Z) : M unit :=
  buttons ← gets menuItemButtons;
  match JS.at_index buttons k with
  | Some button => focus button
  | None => throw JS.TypeError
  end.

(** ** The script of the component *)

Section Component.

Variable props : Props.t.

(** lines 86-88 *)
Definition isSelectedOption (menuOption : string) : bool :=
  String.eqb menuOption (Props.modelValue props).

Record ItemButtonClass := mkItemButtonClass {
  dropdown__item_button : bool;
  dropdown__item_button__first : bool;
  dropdown__item_button__last : bool;
  dropdown__item_button__bold : bool;
}.

(** lines 94-101 *)
Definition getItemButtonClass (index : Z) (option : string) : ItemButtonClass :=
  {| dropdown__item_button := true;
     dropdown__item_button__first := (index =? 0)%Z;
     dropdown__item_button__last :=
       (index =? Z.of_nat (length (Props.options props)) - 1)%Z;
     dropdown__item_button__bold :=
       Props.isFilter props && isSelectedOption option |}.

(** lines 107-111 *)
Definition handlePrincipalButtonFocusIn (event : Event.t) : M unit :=
  when (Props.isErrorShown props) (emits (principalButtonFocusIn event)).

(** lines 114-118 *)
Definition openMenu : M unit :=
  isMenuOpened_set true.

(** lines 121-126 *)
Definition closeMenu : M unit :=
  isMenuOpened_set false;;
  document_removeEventListener.

(** lines 129-131; [?.] skips the call on an empty list *)
Definition focusFirstMenuButton : M unit :=
  buttons ← gets menuItemButtons;
  match JS.at_index buttons 0 with
  | Some button => focus button
  | None => skip
  end.

(** lines 134-140 *)
Definition handlePrincipalButtonClick : M unit :=
  gets isMenuOpened ≫= λ opened : bool,
  if opened then closeMenu else openMenu.

(** [principalMenu.value.focus()]: when the focus moves to the trigger, the
    trigger receives focusin before [focus] returns, and the template hands
    that event to [handlePrincipalButtonFocusIn]; focusing the element that
    already holds the focus dispatches nothing. *)
Definition principalMenu_focus (element : Element.t) : M unit :=
  gets activeElement ≫= λ focused : option Element.t,
  focus element;;
  when (negb (bool_decide (focused = Some element)))
       (handlePrincipalButtonFocusIn (Event.mk "" element)).

(** [if (principalMenu.value) principalMenu.value.focus()] *)
Definition focusPrincipalMenu : M unit :=
  trigger ← gets principalMenu;
  match trigger with
  | Some element => principalMenu_focus element
  | None => skip
  end.

(** lines 146-161 *)
Definition handleMenuButtonClick (event : Event.t) : M unit :=
  when (Element.instanceof (Event.target event) HTMLButtonElement) (
    let buttonElement := Event.target event in
    when (JS.truthy (Element.textContent buttonElement))
      (emits (update_modelValue (JS.trim (Element.textContent buttonElement))))
  );;
  closeMenu;;
  focusPrincipalMenu.

(** lines 167-215 *)
Definition handleMenuButtonKeyInput (event : Event.t) : M unit :=
  when (Element.instanceof (Event.target event) HTMLButtonElement) (
    let currentButton := Event.target event in
    buttons ← gets menuItemButtons;
    let currentButtonIndex := JS.indexOf buttons currentButton in
    let lastIndex := (Z.of_nat (length buttons) - 1)%Z in
    when (String.eqb (Event.key event) "ArrowUp") (
      preventDefault;;
      when ((0 <? currentButtonIndex)%Z && (currentButtonIndex <=? lastIndex)%Z)
        (menuItemButtons_focus (currentButtonIndex - 1));;
      when (currentButtonIndex =? 0)%Z
        (menuItemButtons_focus lastIndex)
    );;
    when (String.eqb (Event.key event) "ArrowDown") (
      preventDefault;;
      when ((0 <=? currentButtonIndex)%Z && (currentButtonIndex <? lastIndex)%Z)
        (menuItemButtons_focus (currentButtonIndex + 1));;
      when (currentButtonIndex =? lastIndex)%Z
        (menuItemButtons_focus 0)
    );;
    when (String.eqb (Event.key event) "Escape") (
      closeMenu;;
      focusPrincipalMenu
    );;
    when (String.eqb (Event.key event) "Tab")
      closeMenu
  ).

(** lines 218-239, the function handed to [watchEffect] *)
Definition watchEffect_callback : M unit :=
  opened ← gets isMenuOpened;
  when opened (
    modify (with_menuItemButtons []);;
    items ← gets menuItems;
    forEach items (λ menuItem,
      match ListItem.querySelector_button menuItem with
      | Some menuItemButton =>
          modify (λ s, with_menuItemButtons (menuItemButtons s ++ [menuItemButton]) s)
      | None => skip
      end);;
    focusFirstMenuButton;;
    setTimeout
  ).

(** lines 235-237, the function handed to [setTimeout] *)
Definition setTimeout_callback : M unit :=
  document_addEventListener.

(** lines 242-249 *)
Definition closeMenuOnOutsideClick (event : Event.t) : M unit :=
  buttons ← gets menuItemButtons;
  let isMenuButton :=
    Element.instanceof (Event.target event) HTMLButtonElement
    && JS.includes buttons (Event.target event) in
  when (negb isMenuButton) closeMenu.

(** lines 251-253, the function handed to [onBeforeUnmount] *)
Definition onBeforeUnmount_callback : M unit :=
  document_removeEventListener.

End Component.

(** ** The template and the event loop around the script *)

Section Runtime.

Variable props : Props.t.

(** Modelled from the spec: [BaseButton] and [BaseIcon] are not part of
    the sources; the button surface renders one focusable button around
    its slot, and the icon surface renders an icon without text.  Item
    [index] of the [v-for] is an [li] holding that button, whose text is
    the interpolated option followed by the white space of the template,
    and, for the selected option, the check mark inside the button. *)
Definition renderButton (index : nat) (option : string) : Element.t :=
  Element.mk (3 * index + 2) HTMLButtonElement (option +:+ " ").

Definition renderIcon (index : nat) : Element.t :=
  Element.mk (3 * index + 3) SVGElement "".

Definition renderMenuItem (index : nat) (option : string) : ListItem.t :=
  ListItem.mk (3 * index + 1)
    (renderButton index option
     :: (if isSelectedOption props option then [renderIcon index] else [])).

(** The [ul] exists only under [v-if="isMenuOpened"]; the template ref
    [menuItems] collects the rendered [li] in the order of [options]. *)
Definition render : M unit :=
  modify (λ s,
    with_menuItems
      (if isMenuOpened s then imap renderMenuItem (Props.options props) else [])
      s).

(** One flush of the scheduler.  The watcher is a pre-flush job: it runs
    before the template is brought up to date, on the refs the last render
    left.  The render then fills or empties the refs; when that changes
    them and the watcher has read them (the menu is open), the watcher
    runs once more. *)
Definition flushJobs : M unit :=
  gets effectQueued ≫= λ queued : bool,
  when queued (
    modify (with_effectQueued false);;
    watchEffect_callback;;
    gets menuItems ≫= λ before : list ListItem.t,
    render;;
    gets menuItems ≫= λ after : list ListItem.t,
    gets isMenuOpened ≫= λ opened : bool,
    when (opened && negb (bool_decide (before = after))) watchEffect_callback
  ).

(** What reaches the component from outside. *)
Inductive Input :=
| FocusInTrigger                                  (* the focus moves to the trigger *)
| ClickTrigger                                    (* click on the trigger *)
| KeyupDownTrigger                                (* keyup.down on the trigger *)
| ClickMenu (target : Element.t)                  (* click inside a menu button *)
| KeyMenu (key : string) (target : Element.t)     (* key event on a menu button *)
| MouseEnterMenu (target : Element.t)             (* mouseenter on a menu button *)
| ClickDocument (target : Element.t)              (* click anywhere else *)
| Timeout                                         (* a pending timer runs *)
| BeforeUnmount.                                  (* the component is torn down *)

(** A click that has passed the component bubbles to the document, where
    the listener runs if it is registered at that moment. *)
Definition document_click (event : Event.t) : M unit :=
  gets clickListener ≫= λ registered : bool,
  when registered (closeMenuOnOutsideClick event).

(** An event starts with a clear canceled flag; the scheduler flushes
    after each listener, so between the listener of the component and the
    one on the document, and after that one. *)
Definition react (i : Input) : M unit :=
  modify (with_defaultPrevented false);;
  match i with
  | FocusInTrigger =>
      gets principalMenu ≫= λ trigger : option Element.t,
      match trigger with
      | Some element => principalMenu_focus props element
      | None => skip
      end
  | ClickTrigger =>
      gets principalMenu ≫= λ trigger : option Element.t,
      match trigger with
      | Some element =>
          handlePrincipalButtonClick;;
          flushJobs;;
          document_click (Event.mk "" element);;
          flushJobs
      | None => skip
      end
  | KeyupDownTrigger => openMenu;; flushJobs
  | ClickMenu target =>
      handleMenuButtonClick props (Event.mk "" target);;
      flushJobs;;
      document_click (Event.mk "" target);;
      flushJobs
  | KeyMenu key target =>
      handleMenuButtonKeyInput props (Event.mk key target);;
      flushJobs
  | MouseEnterMenu target => focus target
  | ClickDocument target => document_click (Event.mk "" target);; flushJobs
  | Timeout =>
      gets timers ≫= λ pending : nat,
      match pending with
      | O => skip
      | S n => modify (with_timers n);; setTimeout_callback
      end
  | BeforeUnmount => onBeforeUnmount_callback
  end.

(** A run of the component on a sequence of inputs; an exception ends
    it. *)
Fixpoint run (inputs : list Input) : M unit :=
  match inputs with
  | [] => skip
  | i :: rest => react i;; run rest
  end.

(** The state right after mounting with trigger [trigger]. *)
Definition mounted (trigger : Element.t) : State :=
  {| isMenuOpened := false;
     principalMenu := Some trigger;
     menuItems := [];
     menuItemButtons := [];
     activeElement := None;
     clickListener := false;
     timers := 0;
     emitted := [];
     defaultPrevented := false;
     effectQueued := false |}.

End Runtime.

(** ** Concrete components *)

(** The trigger of the template: an [input] of type button. *)
Definition trigger0 : Element.t := Element.mk 0 HTMLInputElement "".

(** The component of the scenario: three options, the second selected. *)
Definition props0 : Props.t :=
  {| Props.id := "kind"; Props.name := None; Props.modelValue := "Beta";
     Props.errorText := ""; Props.isErrorShown := false;
     Props.placeholder := None; Props.isRequired := false;
     Props.options := ["Alpha"; "Beta"; "Gamma"];
     Props.isFilter := false; Props.isActiveFilter := false;
     Props.variant := regular |}.

(** Props that differ only in the current value. *)
Definition props_with_value (v : string) : Props.t :=
  {| Props.id := "field"; Props.name := None; Props.modelValue := v;
     Props.errorText := ""; Props.isErrorShown := false;
     Props.placeholder := None; Props.isRequired := false;
     Props.options := []; Props.isFilter := false;
     Props.isActiveFilter := false; Props.variant := regular |}.

(** The buttons rendered for the options of [props0], a button without
    text, and the check mark inside the button of the selected option. *)
Definition alpha : Element.t := Element.mk 2 HTMLButtonElement "Alpha ".
Definition beta : Element.t := Element.mk 5 HTMLButtonElement "Beta ".
Definition gamma : Element.t := Element.mk 8 HTMLButtonElement "Gamma ".
Definition blank : Element.t := Element.mk 2 HTMLButtonElement "".
Definition checkMark : Element.t := Element.mk 6 SVGElement "".

(** An open menu with the handle set [buttons]: the first handle focused
    and the listener registered. *)
Definition opened_on (buttons : list Element.t) : State :=
  {| isMenuOpened := true;
     principalMenu := Some trigger0;
     menuItems := [];
     menuItemButtons := buttons;
     activeElement := head buttons;
     clickListener := true;
     timers := 0;
     emitted := [];
     defaultPrevented := false;
     effectQueued := false |}.

(** ** Keys that follow the focus *)

(** A key event on the menu goes to the element that holds the focus. *)
Definition keyOnFocused (props : Props.t) (key : string) : M unit :=
  gets activeElement ≫= λ focused : option Element.t,
  match focused with
  | Some element => handleMenuButtonKeyInput props (Event.mk key element)
  | None => skip
  end.

(** [m], [n] times in a row. *)
Fixpoint times (n : nat) (m : M unit) : M unit :=
  match n with
  | O => skip
  | S n' => m;; times n' m
  end.

(** The classes of the rendered item buttons, in the order of the
    options, as the [v-for] of the template computes them. *)
Definition itemButtonClasses (props : Props.t) : list ItemButtonClass :=
  imap (λ index option, getItemButtonClass props (Z.of_nat index) option)
       (Props.options props).

(** ** Runs in which no timer is late *)

(** Every timer of the run fires while the menu is open. *)
Fixpoint timely (props : Props.t) (inputs : list Input) (s : State) : Prop :=
  match inputs with
  | [] => True
  | i :: rest =>
      (i = Timeout → isMenuOpened s = true)
      ∧ timely props rest (final (react props i s))
  end.

(** ** Properties of states and computations *)

(** The payloads of the value changes among emitted events, oldest
    first. *)
Definition valueChanges (events : list Emit) : list string :=
  omap (λ e, match e with
             | update_modelValue payload => Some payload
             | principalButtonFocusIn _ => None
             end) events.

(** What a refocus of the trigger emits: the focusin it dispatches reaches
    [handlePrincipalButtonFocusIn] when the focus was elsewhere, and that
    handler emits when the error is shown. *)
Definition focusinEmits (props : Props.t) (focused : option Element.t)
    (trigger : Element.t) : list Emit :=
  if Props.isErrorShown props && negb (bool_decide (focused = Some trigger))
  then [principalButtonFocusIn (Event.mk "" trigger)]
  else [].

(** The claim of the specification on a commit, as it is worded, over the
    menus the component shows: in an open menu reached by a run, a click on
    a rendered item, wherever in the item it lands, closes the menu, puts
    the focus on the trigger and emits one value change with the trimmed
    text of the item's button. *)
Definition click_on_item_always_emits : Prop :=
  ∀ (props : Props.t) (trigger : Element.t) (inputs : list Input)
    (index : nat) (option : string) (target : Element.t),
    let s := final (run props inputs (mounted trigger)) in
    isMenuOpened s = true →
    Props.options props !! index = Some option →
    target ∈ ListItem.descendants (renderMenuItem props index option) →
    ∃ s', handleMenuButtonClick props (Event.mk "" target) s = Normal tt s'
          ∧ isMenuOpened s' = false
          ∧ activeElement s' = Some trigger
          ∧ valueChanges (emitted s') =
              valueChanges (emitted s)
              ++ [JS.trim (Element.textContent (renderButton index option))].

(** The registration discipline: the listener is registered only while the
    menu is open. *)
Definition tidy (s : State) : Prop :=
  clickListener s = true → isMenuOpened s = true.

(** [m] keeps [P]: from a state with [P] it ends, normally or not, in a
    state with [P]. *)
Definition keeps (P : State → Prop) {A : Type} (m : M A) : Prop :=
  ∀ s, P s → P (final (m s)).

(** State updates that touch neither the open flag nor the listener. *)
Definition same_gate (f : State → State) : Prop :=
  ∀ s, isMenuOpened (f s) = isMenuOpened s ∧ clickListener (f s) = clickListener s.

(** A state between two events: nothing is queued, an open menu shows the
    items of the options with their buttons as handle set, and a closed
    menu shows no item. *)
Definition settled (props : Props.t) (s : State) : Prop :=
  effectQueued s = false
  ∧ if isMenuOpened s
    then menuItems s = imap (renderMenuItem props) (Props.options props)
         ∧ menuItemButtons s = imap renderButton (Props.options props)
    else menuItems s = [].

(** [h] comes after [s] in a listener: refs and handle set are those of
    [s], and a change of the open flag has queued the watcher. *)
Definition since (s h : State) : Prop :=
  menuItems h = menuItems s
  ∧ menuItemButtons h = menuItemButtons s
  ∧ (effectQueued h = true
     ∨ (effectQueued h = effectQueued s ∧ isMenuOpened h = isMenuOpened s)).

(** [m] always returns, in a state that comes after the one it started
    in. *)
Definition calm {A : Type} (m : M A) : Prop :=
  ∀ s0 s, since s0 s → ∃ a h, m s = Normal a h ∧ since s0 h.

(** State updates that touch neither refs, handle set, open flag nor
    queue. *)
Definition same_core (f : State → State) : Prop :=
  ∀ s, menuItems (f s) = menuItems s
       ∧ menuItemButtons (f s) = menuItemButtons s
       ∧ effectQueued (f s) = effectQueued s
       ∧ isMenuOpened (f s) = isMenuOpened s.

(** * Theorems *)

(** ** Running the script *)

(** Unfolds the script down to the state it computes. *)
Ltac script :=
  unfold handlePrincipalButtonFocusIn, handlePrincipalButtonClick,
    handleMenuButtonClick, handleMenuButtonKeyInput, closeMenuOnOutsideClick,
    onBeforeUnmount_callback, setTimeout_callback, focusFirstMenuButton,
    focusPrincipalMenu, principalMenu_focus, menuItemButtons_focus, closeMenu,
    openMenu,
    isMenuOpened_set, document_addEventListener, document_removeEventListener,
    setTimeout, emits, preventDefault, focus, when, skip, throw, modify, gets,
    mbind, M_bind, mret, M_ret in *.

Lemma with_clickListener_id (s : State) :
  clickListener s = false → with_clickListener false s = s.
Proof. destruct s; simpl; intros ->; reflexivity. Qed.

Lemma bind_skip_r (m : M unit) (s : State) : (m;; skip) s = m s.
Proof. unfold mbind, M_bind, skip, mret, M_ret. by destruct (m s) as [[] ?|]. Qed.

Lemma bind_assoc {A B C : Type} (m : M A) (k : A → M B) (h : B → M C) (s : State) :
  (m ≫= λ a, k a ≫= h) s = ((m ≫= k) ≫= h) s.
Proof. unfold mbind, M_bind. by destruct (m s). Qed.

Lemma bind_modify {B : Type} (f : State → State) (k : unit → M B) (s : State) :
  (modify f ≫= k) s = k tt (f s).
Proof. reflexivity. Qed.

Lemma bind_gets {A B : Type} (f : State → A) (k : A → M B) (s : State) :
  (gets f ≫= k) s = k (f s) s.
Proof. reflexivity. Qed.

(** *** Trimming *)

Lemma trimStart_split (s : string) :
  ∃ p, s = p +:+ JS.trimStart s
       ∧ JS.allWhiteSpace p = true
       ∧ JS.startsWithWhiteSpace (JS.trimStart s) = false.
Proof.
  induction s as [|c r (p & Hr & Hp & Hs)].
  - by exists "".
  - cbn [JS.trimStart]. destruct (JS.isWhiteSpace c) eqn:Hc.
    + exists (String c p). split; [|split; [|exact Hs]].
      * change (String c r = String c (p +:+ JS.trimStart r)). by rewrite <- Hr.
      * cbn [JS.allWhiteSpace]. by rewrite Hc, Hp.
    + exists "". split; [reflexivity|]. split; [reflexivity|exact Hc].
Qed.

Lemma trimEnd_split (s : string) :
  ∃ q, s = JS.trimEnd s +:+ q
       ∧ JS.allWhiteSpace q = true
       ∧ JS.endsWithWhiteSpace (JS.trimEnd s) = false.
Proof.
  induction s as [|c r (q & Hr & Hq & He)].
  - by exists "".
  - cbn [JS.trimEnd]. destruct (JS.trimEnd r) as [|c' r'] eqn:Hend.
    + change (r = q) in Hr. subst q.
      destruct (JS.isWhiteSpace c) eqn:Hc.
      * exists (String c r). split; [reflexivity|]. split; [|reflexivity].
        cbn [JS.allWhiteSpace]. by rewrite Hc, Hq.
      * exists r. split; [reflexivity|]. split; [exact Hq|exact Hc].
    + exists q. split; [|split; [exact Hq|exact He]].
      change (String c r = String c (String c' r' +:+ q)). by rewrite <- Hr.
Qed.

Lemma trimEnd_keeps_start (s : string) :
  JS.startsWithWhiteSpace s = false → JS.startsWithWhiteSpace (JS.trimEnd s) = false.
Proof.
  destruct s as [|c r]; [done|]. cbn [JS.startsWithWhiteSpace JS.trimEnd].
  intros Hc. destruct (JS.trimEnd r); [by rewrite Hc | exact Hc].
Qed.

(** [trim] removes a run of white space at each end, and only that: what
    is left neither starts nor ends with white space. *)
Lemma trim_split (s : string) :
  ∃ p q, s = p +:+ JS.trim s +:+ q
         ∧ JS.allWhiteSpace p = true
         ∧ JS.allWhiteSpace q = true
         ∧ JS.startsWithWhiteSpace (JS.trim s) = false
         ∧ JS.endsWithWhiteSpace (JS.trim s) = false.
Proof.
  destruct (trimStart_split s) as (p & Hs & Hp & Hstart).
  destruct (trimEnd_split (JS.trimStart s)) as (q & Ht & Hq & Hend).
  exists p, q. unfold JS.trim. rewrite <- Ht.
  split; [exact Hs|]. split; [exact Hp|]. split; [exact Hq|].
  split; [by apply trimEnd_keeps_start | exact Hend].
Qed.

Example trim_examples :
  JS.trim " Gamma " = "Gamma"
  ∧ JS.trim "Alpha" = "Alpha"
  ∧ JS.trim "two words " = "two words"
  ∧ JS.trim "   " = ""
  ∧ JS.trim "" = "".
Proof. by repeat split. Qed.

Lemma trimStart_blank (s : string) : JS.allWhiteSpace s = true → JS.trimStart s = "".
Proof.
  induction s as [|c r IH]; [done|]. cbn [JS.allWhiteSpace JS.trimStart].
  intros [Hc Hr]%andb_true_iff. rewrite Hc. by apply IH.
Qed.

Lemma trim_blank (s : string) : JS.allWhiteSpace s = true → JS.trim s = "".
Proof. intros Hs. unfold JS.trim. by rewrite trimStart_blank. Qed.

Lemma trimStart_app_blank (p s : string) :
  JS.allWhiteSpace p = true → JS.trimStart (p +:+ s) = JS.trimStart s.
Proof.
  induction p as [|c r IH]; [done|]. cbn [JS.allWhiteSpace].
  intros [Hc Hr]%andb_true_iff.
  change (String c r +:+ s) with (String c (r +:+ s)).
  cbn [JS.trimStart]. rewrite Hc. by apply IH.
Qed.

Lemma trimEnd_blank (q : string) : JS.allWhiteSpace q = true → JS.trimEnd q = "".
Proof.
  induction q as [|c r IH]; [done|]. cbn [JS.allWhiteSpace JS.trimEnd].
  intros [Hc Hr]%andb_true_iff. by rewrite IH, Hc.
Qed.

Lemma trimEnd_app_blank (s q : string) :
  JS.allWhiteSpace q = true → JS.trimEnd (s +:+ q) = JS.trimEnd s.
Proof.
  intros Hq. induction s as [|c r IH]; [by apply trimEnd_blank|].
  change (String c r +:+ q) with (String c (r +:+ q)).
  cbn [JS.trimEnd]. by rewrite IH.
Qed.

Lemma trimStart_app_not_blank (s q : string) :
  JS.allWhiteSpace s = false → JS.trimStart (s +:+ q) = JS.trimStart s +:+ q.
Proof.
  induction s as [|c r IH]; [done|]. cbn [JS.allWhiteSpace].
  change (String c r +:+ q) with (String c (r +:+ q)). cbn [JS.trimStart].
  destruct (JS.isWhiteSpace c); [exact IH | reflexivity].
Qed.

(** White space around a text does not show in what [trim] returns. *)
Lemma trim_padded (p s q : string) :
  JS.allWhiteSpace p = true → JS.allWhiteSpace q = true →
  JS.trim (p +:+ s +:+ q) = JS.trim s.
Proof.
  intros Hp Hq. unfold JS.trim. rewrite trimStart_app_blank by exact Hp.
  destruct (JS.allWhiteSpace s) eqn:Hs.
  - rewrite (trimStart_app_blank s q Hs), (trimStart_blank q Hq), (trimStart_blank s Hs).
    reflexivity.
  - rewrite trimStart_app_not_blank by exact Hs. by apply trimEnd_app_blank.
Qed.

(** *** Selection predicate *)

(** C7: [isSelectedOption] answers true exactly when the option and the
    current value are the same string; the empty string, a blank string and
    a string that differs only in case are each different from the
    value. *)
Theorem isSelectedOption_exact :
  (∀ (props : Props.t) (menuOption : string),
      isSelectedOption props menuOption = true ↔ menuOption = Props.modelValue props)
  ∧ isSelectedOption (props_with_value "") " " = false
  ∧ isSelectedOption (props_with_value " ") "" = false
  ∧ isSelectedOption (props_with_value " ") "  " = false
  ∧ isSelectedOption (props_with_value "Beta") "beta" = false
  ∧ isSelectedOption (props_with_value "Beta") "Beta " = false
  ∧ isSelectedOption (props_with_value "") "" = true.
Proof.
  split; [| repeat split].
  intros props menuOption. unfold isSelectedOption. apply String.eqb_eq.
Qed.

(** *** Focus on the trigger *)

(** C8: a focus event on the trigger emits [principalButtonFocusIn] with
    that event when [isErrorShown] is true and emits nothing when it is
    false; nothing else changes. *)
Theorem handlePrincipalButtonFocusIn_emits (props : Props.t) (event : Event.t) (s : State) :
  handlePrincipalButtonFocusIn props event s =
    Normal tt (if Props.isErrorShown props
               then with_emitted (emitted s ++ [principalButtonFocusIn event]) s
               else s).
Proof. script. destruct (Props.isErrorShown props); reflexivity. Qed.

(** *** Closing *)

Lemma closeMenu_closed (s : State) :
  isMenuOpened s = false → closeMenu s = Normal tt (with_clickListener false s).
Proof. intros H. script. rewrite H. reflexivity. Qed.

Lemma closeMenu_opened (s : State) :
  isMenuOpened s = true →
  closeMenu s =
    Normal tt (with_clickListener false (with_effectQueued true (with_isMenuOpened false s))).
Proof. intros H. script. rewrite H. reflexivity. Qed.

Lemma closeMenu_returns (s : State) :
  ∃ s', closeMenu s = Normal tt s'
        ∧ isMenuOpened s' = false ∧ clickListener s' = false
        ∧ principalMenu s' = principalMenu s
        ∧ menuItems s' = menuItems s
        ∧ menuItemButtons s' = menuItemButtons s
        ∧ activeElement s' = activeElement s
        ∧ timers s' = timers s
        ∧ emitted s' = emitted s
        ∧ defaultPrevented s' = defaultPrevented s.
Proof.
  destruct (isMenuOpened s) eqn:H.
  - rewrite (closeMenu_opened s H). eexists; split; [reflexivity|]. by repeat split.
  - rewrite (closeMenu_closed s H). eexists; split; [reflexivity|]. by repeat split.
Qed.

Lemma closeMenu_twice (s : State) : (closeMenu;; closeMenu) s = closeMenu s.
Proof.
  destruct (isMenuOpened s) eqn:H.
  - change ((closeMenu;; closeMenu) s) with
      (match closeMenu s with Normal _ s' => closeMenu s' | Throw e s' => Throw e s' end).
    rewrite (closeMenu_opened s H). rewrite closeMenu_closed by reflexivity.
    reflexivity.
  - change ((closeMenu;; closeMenu) s) with
      (match closeMenu s with Normal _ s' => closeMenu s' | Throw e s' => Throw e s' end).
    rewrite (closeMenu_closed s H). rewrite closeMenu_closed by exact H.
    reflexivity.
Qed.

(** C9: on a menu that is already closed [closeMenu] returns with the menu
    still closed, no listener registered, nothing emitted and no watcher
    queued: the state is the one before, with the listener cleared; it is
    the very same state when no listener was registered.  A second
    [closeMenu] adds nothing to a first one, also when the second comes
    from the outside-click listener on a target that is not a menu
    button. *)
Theorem closeMenu_idempotent (s : State) (Hclosed : isMenuOpened s = false) :
  closeMenu s = Normal tt (with_clickListener false s)
  ∧ (clickListener s = false → closeMenu s = Normal tt s)
  ∧ (closeMenu;; closeMenu) s = closeMenu s
  ∧ (∀ event : Event.t,
        Element.instanceof (Event.target event) HTMLButtonElement
          && JS.includes (menuItemButtons s) (Event.target event) = false →
        closeMenuOnOutsideClick event s = closeMenu s
        ∧ (closeMenu;; closeMenuOnOutsideClick event) s = closeMenu s).
Proof.
  split; [exact (closeMenu_closed s Hclosed)|].
  split.
  { intros Hl. rewrite (closeMenu_closed s Hclosed).
    by rewrite with_clickListener_id. }
  split; [apply closeMenu_twice|].
  intros event Hout.
  assert (Hcl : ∀ s', menuItemButtons s' = menuItemButtons s →
                      closeMenuOnOutsideClick event s' = closeMenu s').
  { intros s' Hb. unfold closeMenuOnOutsideClick.
    change ((gets menuItemButtons ≫= ?k) s') with (k (menuItemButtons s') s').
    cbv beta. rewrite Hb, Hout. reflexivity. }
  split; [by apply Hcl|].
  transitivity ((closeMenu;; closeMenu) s); [|apply closeMenu_twice].
  change ((closeMenu;; closeMenuOnOutsideClick event) s) with
    (match closeMenu s with
     | Normal _ s' => closeMenuOnOutsideClick event s' | Throw e s' => Throw e s' end).
  change ((closeMenu;; closeMenu) s) with
    (match closeMenu s with Normal _ s' => closeMenu s' | Throw e s' => Throw e s' end).
  rewrite (closeMenu_closed s Hclosed). by apply Hcl.
Qed.

Lemma closeMenu_idempotent_witness :
  isMenuOpened (mounted trigger0) = false
  ∧ closeMenu (mounted trigger0) = Normal tt (mounted trigger0).
Proof.
  split; [reflexivity|].
  exact (proj1 (proj2 (closeMenu_idempotent (mounted trigger0) eq_refl)) eq_refl).
Defined.

(** *** Closing with the focus back on the trigger *)

Lemma principalMenu_focus_run (props : Props.t) (element : Element.t) (s : State) :
  principalMenu_focus props element s =
    Normal tt
      (with_emitted (emitted s ++ focusinEmits props (activeElement s) element)
         (with_activeElement (Some element) s)).
Proof.
  unfold principalMenu_focus, focusinEmits, handlePrincipalButtonFocusIn, focus,
    emits, when, skip, modify, gets, mbind, M_bind, mret, M_ret.
  destruct (Props.isErrorShown props), (bool_decide (activeElement s = Some element));
    cbn; try reflexivity; rewrite app_nil_r; by destruct s.
Qed.

Lemma valueChanges_app (l1 l2 : list Emit) :
  valueChanges (l1 ++ l2) = valueChanges l1 ++ valueChanges l2.
Proof. apply omap_app. Qed.

Lemma valueChanges_focusinEmits props focused trigger :
  valueChanges (focusinEmits props focused trigger) = [].
Proof. unfold focusinEmits. by destruct (_ && _). Qed.

(** [closeMenu] followed by the refocus always returns: the menu is closed
    and the listener cleared; with a trigger mounted the focus is on it
    and its focusin may have emitted; the rest is as before. *)
Lemma closeMenu_focusPrincipalMenu_returns (props : Props.t) (s : State) :
  ∃ s', (closeMenu;; focusPrincipalMenu props) s = Normal tt s'
        ∧ isMenuOpened s' = false
        ∧ clickListener s' = false
        ∧ activeElement s' =
            match principalMenu s with
            | Some trigger => Some trigger
            | None => activeElement s
            end
        ∧ emitted s' =
            emitted s ++
              match principalMenu s with
              | Some trigger => focusinEmits props (activeElement s) trigger
              | None => []
              end
        ∧ principalMenu s' = principalMenu s
        ∧ menuItemButtons s' = menuItemButtons s
        ∧ timers s' = timers s.
Proof.
  destruct (closeMenu_returns s)
    as (s1 & Hrun & Ho & Hl & Hp & _ & Hb & Ha & Ht & He & _).
  unfold mbind, M_bind. rewrite Hrun. unfold focusPrincipalMenu.
  rewrite bind_gets, Hp.
  destruct (principalMenu s) as [trigger|].
  - rewrite principalMenu_focus_run. eexists. split; [reflexivity|].
    cbn [isMenuOpened clickListener activeElement emitted principalMenu
         menuItemButtons timers with_emitted with_activeElement].
    rewrite Ha, He. by repeat split.
  - exists s1. rewrite app_nil_r. by repeat split.
Qed.

(** The click handler is the conditional emit followed by close and
    refocus. *)
Lemma handleMenuButtonClick_unfold (props : Props.t) (event : Event.t) (s : State) :
  let target := Event.target event in
  handleMenuButtonClick props event s =
    (closeMenu;; focusPrincipalMenu props)
      (if Element.instanceof target HTMLButtonElement
          && JS.truthy (Element.textContent target)
       then with_emitted
              (emitted s ++ [update_modelValue (JS.trim (Element.textContent target))]) s
       else s).
Proof.
  cbv zeta. unfold handleMenuButtonClick.
  destruct (Element.instanceof (Event.target event) HTMLButtonElement);
    [destruct (JS.truthy (Element.textContent (Event.target event)))|];
    reflexivity.
Qed.

(** Every click handled by [handleMenuButtonClick], with a trigger
    mounted: what it leaves and what it emits. *)
Lemma handleMenuButtonClick_returns
    (props : Props.t) (s : State) (trigger : Element.t) (event : Event.t) :
  principalMenu s = Some trigger →
  let target := Event.target event in
  ∃ s', handleMenuButtonClick props event s = Normal tt s'
        ∧ isMenuOpened s' = false
        ∧ clickListener s' = false
        ∧ activeElement s' = Some trigger
        ∧ emitted s' =
            emitted s
            ++ (if Element.instanceof target HTMLButtonElement
                   && JS.truthy (Element.textContent target)
                then [update_modelValue (JS.trim (Element.textContent target))]
                else [])
            ++ focusinEmits props (activeElement s) trigger.
Proof.
  intros Htrigger target. rewrite handleMenuButtonClick_unfold. fold target.
  destruct (Element.instanceof target HTMLButtonElement
            && JS.truthy (Element.textContent target)).
  - destruct (closeMenu_focusPrincipalMenu_returns props
               (with_emitted
                  (emitted s ++ [update_modelValue (JS.trim (Element.textContent target))]) s))
      as (s' & Hrun & Ho & Hl & Ha & He & _).
    cbn [principalMenu activeElement emitted with_emitted] in Ha, He.
    rewrite Htrigger in Ha, He. rewrite <- app_assoc in He.
    exists s'. by repeat split.
  - destruct (closeMenu_focusPrincipalMenu_returns props s)
      as (s' & Hrun & Ho & Hl & Ha & He & _).
    rewrite Htrigger in Ha, He. exists s'. by repeat split.
Qed.

(** C3, as worded, fails: with the second of three options selected, the
    menu opened by a click on the trigger shows a check mark inside the
    second button; a click that lands on the check mark closes the menu and
    emits no value change. *)
Lemma click_on_item_always_emits_fails : ¬ click_on_item_always_emits.
Proof.
  intros H.
  destruct (H props0 trigger0 [ClickTrigger] 1 "Beta" (renderIcon 1))
    as (s' & Hrun & _ & _ & Hemit).
  - vm_compute. reflexivity.
  - reflexivity.
  - apply (bool_decide_unpack _). vm_compute. exact I.
  - vm_compute in Hrun. injection Hrun as <-. vm_compute in Hemit.
    discriminate Hemit.
Qed.

(** C3, amended: on an open menu a click on a rendered item returns with
    the menu closed, the listener cleared and the focus on the trigger.
    When the target is the button of the item it emits exactly one value
    change, whose payload is the text of the button trimmed, which is the
    option trimmed; when the click lands on the check mark inside the
    button it emits no value change. *)
Theorem handleMenuButtonClick_commit
    (props : Props.t) (s : State) (trigger : Element.t)
    (index : nat) (option : string) (target : Element.t)
    (Hopen : isMenuOpened s = true)
    (Htrigger : principalMenu s = Some trigger)
    (Htarget : target ∈ ListItem.descendants (renderMenuItem props index option)) :
  ∃ s', handleMenuButtonClick props (Event.mk "" target) s = Normal tt s'
        ∧ isMenuOpened s' = false
        ∧ clickListener s' = false
        ∧ activeElement s' = Some trigger
        ∧ valueChanges (emitted s') =
            valueChanges (emitted s)
            ++ (if bool_decide (target = renderButton index option)
                then [JS.trim (Element.textContent (renderButton index option))]
                else [])
        ∧ JS.trim (Element.textContent (renderButton index option)) = JS.trim option.
Proof.
  destruct (handleMenuButtonClick_returns props s trigger (Event.mk "" target) Htrigger)
    as (s' & Hrun & Ho & Hl & Ha & He).
  cbn [Event.target] in He.
  exists s'. split; [exact Hrun|]. split; [exact Ho|]. split; [exact Hl|].
  split; [exact Ha|]. split.
  - rewrite He, !valueChanges_app, valueChanges_focusinEmits, app_nil_r. f_equal.
    unfold renderMenuItem in Htarget. cbn [ListItem.descendants] in Htarget.
    apply elem_of_cons in Htarget as [-> | Hicon].
    + rewrite bool_decide_eq_true_2 by reflexivity. by destruct option.
    + assert (target = renderIcon index) as ->.
      { destruct (isSelectedOption props option);
          [by apply list_elem_of_singleton in Hicon | by apply elem_of_nil in Hicon]. }
      rewrite bool_decide_eq_false_2 by discriminate. reflexivity.
  - unfold renderButton. cbn [Element.textContent].
    exact (trim_padded "" option " " eq_refl eq_refl).
Qed.

Lemma handleMenuButtonClick_commit_witness :
  let s := final (run props0 [ClickTrigger; Timeout] (mounted trigger0)) in
  (isMenuOpened s = true
   ∧ principalMenu s = Some trigger0
   ∧ gamma ∈ ListItem.descendants (renderMenuItem props0 2 "Gamma"))
  ∧ ∃ s', handleMenuButtonClick props0 (Event.mk "" gamma) s = Normal tt s'
          ∧ isMenuOpened s' = false
          ∧ clickListener s' = false
          ∧ activeElement s' = Some trigger0
          ∧ valueChanges (emitted s') = ["Gamma"].
Proof.
  intros s.
  assert (Htarget : gamma ∈ ListItem.descendants (renderMenuItem props0 2 "Gamma")).
  { apply (bool_decide_unpack _). vm_compute. exact I. }
  split; [by repeat split|].
  destruct (handleMenuButtonClick_commit props0 s trigger0 2 "Gamma" gamma
              eq_refl eq_refl Htarget) as (s' & Hrun & Ho & Hl & Ha & He & _).
  exists s'. by repeat split.
Defined.

(** C10: a click whose target is not a button element, or is a button with
    empty text, still closes the menu and puts the focus back on the
    trigger, and emits no value change: the events it leaves are those
    before it and what the focusin of the refocus emits. *)
Theorem handleMenuButtonClick_without_text
    (props : Props.t) (s : State) (trigger : Element.t) (event : Event.t)
    (Htrigger : principalMenu s = Some trigger)
    (Hnone : Element.interface (Event.target event) ≠ HTMLButtonElement
             ∨ Element.textContent (Event.target event) = "") :
  ∃ s', handleMenuButtonClick props event s = Normal tt s'
        ∧ isMenuOpened s' = false
        ∧ clickListener s' = false
        ∧ activeElement s' = Some trigger
        ∧ valueChanges (emitted s') = valueChanges (emitted s)
        ∧ emitted s' = emitted s ++ focusinEmits props (activeElement s) trigger.
Proof.
  destruct (handleMenuButtonClick_returns props s trigger event Htrigger)
    as (s' & Hrun & Ho & Hl & Ha & He).
  cbv zeta in He.
  assert (Element.instanceof (Event.target event) HTMLButtonElement
          && JS.truthy (Element.textContent (Event.target event)) = false) as Hguard.
  { destruct Hnone as [Hi | Ht].
    - unfold Element.instanceof. by rewrite bool_decide_eq_false_2.
    - rewrite Ht. apply andb_false_r. }
  rewrite Hguard in He. cbn [app] in He.
  exists s'. split; [exact Hrun|]. split; [exact Ho|]. split; [exact Hl|].
  split; [exact Ha|]. split; [|exact He].
  by rewrite He, valueChanges_app, valueChanges_focusinEmits, app_nil_r.
Qed.

Lemma handleMenuButtonClick_without_text_witness :
  (principalMenu (opened_on [blank]) = Some trigger0
   ∧ ∃ s', handleMenuButtonClick props0 (Event.mk "" blank) (opened_on [blank]) = Normal tt s'
           ∧ isMenuOpened s' = false ∧ clickListener s' = false
           ∧ activeElement s' = Some trigger0 ∧ emitted s' = [])
  ∧ ∃ s', handleMenuButtonClick props0 (Event.mk "" checkMark) (opened_on [gamma]) = Normal tt s'
          ∧ isMenuOpened s' = false ∧ clickListener s' = false
          ∧ activeElement s' = Some trigger0 ∧ emitted s' = [].
Proof.
  split; [split; [reflexivity|]|].
  - destruct (handleMenuButtonClick_without_text props0 (opened_on [blank]) trigger0
                (Event.mk "" blank) eq_refl (or_intror eq_refl))
      as (s' & Hrun & Ho & Hl & Ha & _ & He).
    exists s'. by repeat split.
  - assert (Hicon : Element.interface (Event.target (Event.mk "" checkMark))
                    ≠ HTMLButtonElement) by discriminate.
    destruct (handleMenuButtonClick_without_text props0 (opened_on [gamma]) trigger0
                (Event.mk "" checkMark) eq_refl (or_introl Hicon))
      as (s' & Hrun & Ho & Hl & Ha & _ & He).
    exists s'. by repeat split.
Defined.

(** *** Keys on a menu button *)

Lemma indexOf_lookup {A : Type} `{EqDecision A} (l : list A) (i : nat) (x : A) :
  NoDup l → l !! i = Some x → JS.indexOf l x = Z.of_nat i.
Proof.
  intros Hnd Hi. unfold JS.indexOf.
  assert (list_find (λ y, y = x) l = Some (i, x)) as ->; [|reflexivity].
  apply list_find_Some. split; [exact Hi|]. split; [reflexivity|].
  intros j y Hj Hlt ->.
  pose proof (NoDup_lookup l i j x Hnd Hi Hj). lia.
Qed.

Lemma indexOf_absent {A : Type} `{EqDecision A} (l : list A) (x : A) :
  x ∉ l → JS.indexOf l x = (-1)%Z.
Proof.
  intros Hx. unfold JS.indexOf.
  destruct (list_find (λ y, y = x) l) as [[i y]|] eqn:Hf; [|reflexivity].
  apply list_find_Some in Hf as (Hi & -> & _).
  exfalso. apply Hx. by eapply list_elem_of_lookup_2.
Qed.

Lemma at_index_of_nat {A : Type} (l : list A) (i : nat) :
  JS.at_index l (Z.of_nat i) = l !! i.
Proof.
  unfold JS.at_index. destruct (Z.ltb_spec (Z.of_nat i) 0); [lia|].
  by rewrite Nat2Z.id.
Qed.

Lemma menuItemButtons_focus_Some (k : Z) (button : Element.t) (s : State) :
  JS.at_index (menuItemButtons s) k = Some button →
  menuItemButtons_focus k s = Normal tt (with_activeElement (Some button) s).
Proof. intros H. unfold menuItemButtons_focus. script. by rewrite H. Qed.

Lemma menuItemButtons_focus_None (k : Z) (s : State) :
  JS.at_index (menuItemButtons s) k = None →
  menuItemButtons_focus k s = Throw JS.TypeError s.
Proof. intros H. unfold menuItemButtons_focus. script. by rewrite H. Qed.

(** The handler on a button target, key by key. *)
Lemma handleMenuButtonKeyInput_ArrowUp (props : Props.t) (target : Element.t) (s : State) :
  Element.interface target = HTMLButtonElement →
  let index := JS.indexOf (menuItemButtons s) target in
  let lastIndex := (Z.of_nat (length (menuItemButtons s)) - 1)%Z in
  handleMenuButtonKeyInput props (Event.mk "ArrowUp" target) s =
    (when ((0 <? index)%Z && (index <=? lastIndex)%Z) (menuItemButtons_focus (index - 1));;
     when (index =? 0)%Z (menuItemButtons_focus lastIndex))
      (with_defaultPrevented true s).
Proof.
  intros Hb. cbv zeta. unfold handleMenuButtonKeyInput, Element.instanceof.
  cbn [Event.target Event.key]. rewrite bool_decide_eq_true_2 by exact Hb.
  match goal with |- _ = ?m ?s1 => rewrite <- (bind_skip_r m s1) end.
  reflexivity.
Qed.

Lemma handleMenuButtonKeyInput_ArrowDown (props : Props.t) (target : Element.t) (s : State) :
  Element.interface target = HTMLButtonElement →
  let index := JS.indexOf (menuItemButtons s) target in
  let lastIndex := (Z.of_nat (length (menuItemButtons s)) - 1)%Z in
  handleMenuButtonKeyInput props (Event.mk "ArrowDown" target) s =
    (when ((0 <=? index)%Z && (index <? lastIndex)%Z) (menuItemButtons_focus (index + 1));;
     when (index =? lastIndex)%Z (menuItemButtons_focus 0))
      (with_defaultPrevented true s).
Proof.
  intros Hb. cbv zeta. unfold handleMenuButtonKeyInput, Element.instanceof.
  cbn [Event.target Event.key]. rewrite bool_decide_eq_true_2 by exact Hb.
  match goal with |- _ = ?m ?s1 => rewrite <- (bind_skip_r m s1) end.
  reflexivity.
Qed.

Lemma handleMenuButtonKeyInput_Escape (props : Props.t) (target : Element.t) (s : State) :
  Element.interface target = HTMLButtonElement →
  handleMenuButtonKeyInput props (Event.mk "Escape" target) s = (closeMenu;; focusPrincipalMenu props) s.
Proof.
  intros Hb. unfold handleMenuButtonKeyInput, Element.instanceof.
  cbn [Event.target Event.key]. rewrite bool_decide_eq_true_2 by exact Hb.
  rewrite <- (bind_skip_r (closeMenu;; focusPrincipalMenu props) s).
  reflexivity.
Qed.

Lemma handleMenuButtonKeyInput_Tab (props : Props.t) (target : Element.t) (s : State) :
  Element.interface target = HTMLButtonElement →
  handleMenuButtonKeyInput props (Event.mk "Tab" target) s = closeMenu s.
Proof.
  intros Hb. unfold handleMenuButtonKeyInput, Element.instanceof.
  cbn [Event.target Event.key]. rewrite bool_decide_eq_true_2 by exact Hb.
  reflexivity.
Qed.

(** A target that is not a button: the handler does nothing at all. *)
Lemma handleMenuButtonKeyInput_not_button (props : Props.t) (event : Event.t) (s : State) :
  Element.interface (Event.target event) ≠ HTMLButtonElement →
  handleMenuButtonKeyInput props event s = Normal tt s.
Proof.
  intros Hb. unfold handleMenuButtonKeyInput, Element.instanceof.
  rewrite bool_decide_eq_false_2 by exact Hb. reflexivity.
Qed.

(** C4: on a menu button of an open menu, Escape returns with the menu
    closed, the listener cleared and the focus on the trigger, having
    emitted only what the focusin of that refocus emits; Tab returns with
    the menu closed and the listener cleared, leaves the focus where it was
    and emits nothing. *)
Theorem handleMenuButtonKeyInput_Escape_Tab (props : Props.t)
    (s : State) (trigger target : Element.t)
    (Hopen : isMenuOpened s = true)
    (Htrigger : principalMenu s = Some trigger)
    (Hbutton : Element.interface target = HTMLButtonElement) :
  (∃ s', handleMenuButtonKeyInput props (Event.mk "Escape" target) s = Normal tt s'
         ∧ isMenuOpened s' = false
         ∧ clickListener s' = false
         ∧ activeElement s' = Some trigger
         ∧ emitted s' = emitted s ++ focusinEmits props (activeElement s) trigger)
  ∧ (∃ s', handleMenuButtonKeyInput props (Event.mk "Tab" target) s = Normal tt s'
           ∧ isMenuOpened s' = false
           ∧ clickListener s' = false
           ∧ activeElement s' = activeElement s
           ∧ emitted s' = emitted s).
Proof.
  split.
  - rewrite handleMenuButtonKeyInput_Escape by exact Hbutton.
    destruct (closeMenu_focusPrincipalMenu_returns props s)
      as (s' & Hrun & Ho & Hl & Ha & He & _).
    rewrite Htrigger in Ha, He. exists s'. by repeat split.
  - rewrite handleMenuButtonKeyInput_Tab by exact Hbutton.
    destruct (closeMenu_returns s) as (s' & Hrun & Ho & Hl & _ & _ & _ & Ha & _ & He & _).
    exists s'. by repeat split.
Qed.

Lemma handleMenuButtonKeyInput_Escape_Tab_witness :
  (isMenuOpened (opened_on [alpha; beta]) = true
   ∧ principalMenu (opened_on [alpha; beta]) = Some trigger0
   ∧ Element.interface beta = HTMLButtonElement)
  ∧ (∃ s', handleMenuButtonKeyInput props0 (Event.mk "Escape" beta) (opened_on [alpha; beta])
             = Normal tt s'
           ∧ isMenuOpened s' = false ∧ clickListener s' = false
           ∧ activeElement s' = Some trigger0 ∧ emitted s' = [])
  ∧ (∃ s', handleMenuButtonKeyInput props0 (Event.mk "Tab" beta) (opened_on [alpha; beta])
             = Normal tt s'
           ∧ isMenuOpened s' = false ∧ clickListener s' = false
           ∧ activeElement s' = Some alpha ∧ emitted s' = []).
Proof.
  split; [by repeat split|].
  exact (handleMenuButtonKeyInput_Escape_Tab props0 (opened_on [alpha; beta]) trigger0 beta
           eq_refl eq_refl eq_refl).
Defined.

(** C1: with [N] distinct handles and the key event on the handle at index
    [i], ArrowDown returns with the focus on the handle at index
    [(i + 1) mod N] and ArrowUp with the focus on the handle at index
    [(i - 1 + N) mod N]; the key's default is prevented and nothing else
    changes. *)
Theorem handleMenuButtonKeyInput_arrows (props : Props.t)
    (s : State) (i : nat) (button : Element.t)
    (Hdistinct : NoDup (menuItemButtons s))
    (Hat : menuItemButtons s !! i = Some button)
    (Hbutton : Element.interface button = HTMLButtonElement) :
  let N := Z.of_nat (length (menuItemButtons s)) in
  (∃ next,
      JS.at_index (menuItemButtons s) ((Z.of_nat i + 1) mod N)%Z = Some next
      ∧ handleMenuButtonKeyInput props (Event.mk "ArrowDown" button) s =
          Normal tt (with_activeElement (Some next) (with_defaultPrevented true s)))
  ∧ (∃ previous,
        JS.at_index (menuItemButtons s) ((Z.of_nat i - 1 + N) mod N)%Z = Some previous
        ∧ handleMenuButtonKeyInput props (Event.mk "ArrowUp" button) s =
            Normal tt (with_activeElement (Some previous) (with_defaultPrevented true s))).
Proof.
  intros N. subst N. set (n := length (menuItemButtons s)) in *.
  pose proof (lookup_lt_Some _ _ _ Hat) as Hlt.
  pose proof (indexOf_lookup _ _ _ Hdistinct Hat) as Hidx.
  assert (Hget : ∀ k : nat, k < n →
            ∃ b, JS.at_index (menuItemButtons s) (Z.of_nat k) = Some b).
  { intros k Hk. rewrite at_index_of_nat. by apply lookup_lt_is_Some_2. }
  split.
  - rewrite handleMenuButtonKeyInput_ArrowDown by exact Hbutton. cbv zeta.
    rewrite Hidx. fold n.
    destruct (decide (i + 1 < n)) as [Hin | Hlast].
    + destruct (Hget (i + 1) Hin) as [next Hnext].
      replace (Z.of_nat (i + 1)) with (Z.of_nat i + 1)%Z in Hnext by lia.
      exists next. split.
      * rewrite Z.mod_small by lia. exact Hnext.
      * replace ((0 <=? Z.of_nat i)%Z && (Z.of_nat i <? Z.of_nat n - 1)%Z) with true
          by (symmetry; apply andb_true_iff; split;
              [apply Z.leb_le | apply Z.ltb_lt]; lia).
        replace (Z.of_nat i =? Z.of_nat n - 1)%Z with false
          by (symmetry; apply Z.eqb_neq; lia).
        unfold when. rewrite bind_skip_r.
        by apply menuItemButtons_focus_Some.
    + destruct (Hget 0 ltac:(lia)) as [next Hnext].
      exists next. split.
      * replace (Z.of_nat i + 1)%Z with (Z.of_nat n) by lia.
        rewrite Z_mod_same_full. exact Hnext.
      * replace ((0 <=? Z.of_nat i)%Z && (Z.of_nat i <? Z.of_nat n - 1)%Z) with false
          by (symmetry; apply andb_false_iff; right; apply Z.ltb_ge; lia).
        replace (Z.of_nat i =? Z.of_nat n - 1)%Z with true
          by (symmetry; apply Z.eqb_eq; lia).
        unfold when.
        change ((skip;; menuItemButtons_focus 0) (with_defaultPrevented true s))
          with (menuItemButtons_focus 0 (with_defaultPrevented true s)).
        by apply menuItemButtons_focus_Some.
  - rewrite handleMenuButtonKeyInput_ArrowUp by exact Hbutton. cbv zeta.
    rewrite Hidx. fold n.
    destruct i as [|j].
    + destruct (Hget (n - 1) ltac:(lia)) as [previous Hprev].
      replace (Z.of_nat (n - 1)) with (Z.of_nat n - 1)%Z
        in Hprev by lia.
      exists previous. split.
      * replace (Z.of_nat 0 - 1 + Z.of_nat n)%Z with (Z.of_nat n - 1)%Z by lia.
        rewrite Z.mod_small by lia. exact Hprev.
      * change ((0 <? Z.of_nat 0)%Z) with false.
        change (Z.of_nat 0 =? 0)%Z with true.
        unfold when. cbn [andb].
        change ((skip;; menuItemButtons_focus ?k) ?s1) with (menuItemButtons_focus k s1).
        by apply menuItemButtons_focus_Some.
    + destruct (Hget j ltac:(lia)) as [previous Hprev].
      exists previous. split.
      * replace (Z.of_nat (S j) - 1 + Z.of_nat n)%Z with (Z.of_nat j + 1 * Z.of_nat n)%Z by lia.
        rewrite Z_mod_plus_full, Z.mod_small by lia. exact Hprev.
      * replace ((0 <? Z.of_nat (S j))%Z && (Z.of_nat (S j) <=? Z.of_nat n - 1)%Z) with true
          by (symmetry; apply andb_true_iff; split;
              [apply Z.ltb_lt | apply Z.leb_le]; lia).
        replace (Z.of_nat (S j) =? 0)%Z with false
          by (symmetry; apply Z.eqb_neq; lia).
        unfold when. rewrite bind_skip_r.
        apply menuItemButtons_focus_Some.
        replace (Z.of_nat (S j) - 1)%Z with (Z.of_nat j) by lia. exact Hprev.
Qed.

Lemma handleMenuButtonKeyInput_arrows_witness :
  let s := opened_on [alpha; beta; gamma] in
  (NoDup (menuItemButtons s)
   ∧ menuItemButtons s !! 2 = Some gamma
   ∧ Element.interface gamma = HTMLButtonElement)
  ∧ handleMenuButtonKeyInput props0 (Event.mk "ArrowDown" gamma) s =
      Normal tt (with_activeElement (Some alpha) (with_defaultPrevented true s))
  ∧ handleMenuButtonKeyInput props0 (Event.mk "ArrowUp" gamma) s =
      Normal tt (with_activeElement (Some beta) (with_defaultPrevented true s)).
Proof.
  intros s.
  assert (Hdistinct : NoDup (menuItemButtons s)).
  { apply (bool_decide_unpack _). vm_compute. exact I. }
  split; [by repeat split|].
  destruct (handleMenuButtonKeyInput_arrows props0 s 2 gamma Hdistinct eq_refl eq_refl)
    as [(next & Hnext & Hdown) (previous & Hprevious & Hup)].
  vm_compute in Hnext. injection Hnext as <-.
  vm_compute in Hprevious. injection Hprevious as <-.
  split; [exact Hdown | exact Hup].
Defined.

(** *** A key on a button that is not in the handle set *)

(** With at least one handle, an arrow key on a button outside the handle
    set prevents the default and does nothing else. *)
Lemma handleMenuButtonKeyInput_arrow_absent (props : Props.t)
    (s : State) (key : string) (target : Element.t) :
  Element.interface target = HTMLButtonElement →
  target ∉ menuItemButtons s →
  menuItemButtons s ≠ [] →
  key = "ArrowUp" ∨ key = "ArrowDown" →
  handleMenuButtonKeyInput props (Event.mk key target) s =
    Normal tt (with_defaultPrevented true s).
Proof.
  intros Hb Habsent Hne Hkey.
  assert (Hlen : length (menuItemButtons s) ≠ 0)
    by (destruct (menuItemButtons s); [done | simpl; lia]).
  pose proof (indexOf_absent _ _ Habsent) as Hidx.
  destruct Hkey as [-> | ->].
  - rewrite handleMenuButtonKeyInput_ArrowUp by exact Hb. cbv zeta.
    rewrite Hidx. reflexivity.
  - rewrite handleMenuButtonKeyInput_ArrowDown by exact Hb. cbv zeta.
    rewrite Hidx.
    replace (-1 =? Z.of_nat (length (menuItemButtons s)) - 1)%Z with false
      by (symmetry; apply Z.eqb_neq; lia).
    reflexivity.
Qed.

(** ArrowUp on an empty handle set: the same. *)
Lemma handleMenuButtonKeyInput_ArrowUp_empty (props : Props.t) (s : State) (target : Element.t) :
  Element.interface target = HTMLButtonElement →
  menuItemButtons s = [] →
  handleMenuButtonKeyInput props (Event.mk "ArrowUp" target) s =
    Normal tt (with_defaultPrevented true s).
Proof.
  intros Hb Hempty.
  rewrite handleMenuButtonKeyInput_ArrowUp by exact Hb. cbv zeta.
  rewrite Hempty. reflexivity.
Qed.

(** The handler applied to ArrowDown on a button while the handle set is
    empty: index -1 equals the last index -1, [focus] is called on the
    undefined first slot and a TypeError is thrown.  No run of the
    component hands this event to the handler: while the handle set is
    empty no item, and so no button of the menu, is rendered. *)
Lemma handleMenuButtonKeyInput_ArrowDown_empty (props : Props.t)
    (s : State) (target : Element.t)
    (Hbutton : Element.interface target = HTMLButtonElement)
    (Hempty : menuItemButtons s = []) :
  handleMenuButtonKeyInput props (Event.mk "ArrowDown" target) s =
    Throw JS.TypeError (with_defaultPrevented true s).
Proof.
  rewrite handleMenuButtonKeyInput_ArrowDown by exact Hbutton. cbv zeta.
  rewrite Hempty. cbn [length JS.indexOf list_find].
  change ((when _ _;; when _ (menuItemButtons_focus 0)) (with_defaultPrevented true s))
    with (menuItemButtons_focus 0 (with_defaultPrevented true s)).
  apply menuItemButtons_focus_None. cbn [menuItemButtons with_defaultPrevented].
  by rewrite Hempty.
Qed.


(** *** Opening *)

Lemma forEach_push (items : list ListItem.t) (s : State) :
  forEach items (λ menuItem,
    match ListItem.querySelector_button menuItem with
    | Some menuItemButton =>
        modify (λ s, with_menuItemButtons (menuItemButtons s ++ [menuItemButton]) s)
    | None => skip
    end) s =
  Normal tt
    (with_menuItemButtons (menuItemButtons s ++ omap ListItem.querySelector_button items) s).
Proof.
  revert s. induction items as [|menuItem items IH]; intros s.
  - cbn [forEach omap]. rewrite app_nil_r. by destruct s.
  - cbn [forEach]. unfold mbind at 1, M_bind.
    cbn [omap list_omap].
    destruct (ListItem.querySelector_button menuItem) as [button|].
    + unfold modify at 1. rewrite IH.
      cbn [menuItemButtons with_menuItemButtons]. rewrite <- app_assoc. reflexivity.
    + unfold skip at 1, mret, M_ret. apply IH.
Qed.

(** The watcher on an open menu: the handle set is rebuilt from the
    rendered items, the first handle (if any) takes the focus, and one
    timer is scheduled. *)
Lemma watchEffect_callback_opened (s : State) :
  isMenuOpened s = true →
  let buttons := omap ListItem.querySelector_button (menuItems s) in
  watchEffect_callback s =
    Normal tt
      (with_timers (S (timers s))
         (with_activeElement
            (match buttons with first :: _ => Some first | [] => activeElement s end)
            (with_menuItemButtons buttons s))).
Proof.
  intros Hopen. cbv zeta. unfold watchEffect_callback.
  unfold mbind at 1, M_bind, gets at 1. rewrite Hopen. unfold when.
  unfold mbind at 1, M_bind, modify at 1.
  unfold mbind at 1, M_bind, gets at 1. cbn [menuItems with_menuItemButtons].
  unfold mbind at 1, M_bind. rewrite forEach_push.
  cbn [menuItemButtons with_menuItemButtons app].
  destruct (omap ListItem.querySelector_button (menuItems s)) as [|first rest];
    reflexivity.
Qed.

(** The watcher on a closed menu does nothing. *)
Lemma watchEffect_callback_closed (s : State) :
  isMenuOpened s = false → watchEffect_callback s = Normal tt s.
Proof. intros Hclosed. unfold watchEffect_callback. script. by rewrite Hclosed. Qed.

Lemma querySelector_button_render (props : Props.t) (options : list string) (k : nat) :
  omap ListItem.querySelector_button (imap (λ i, renderMenuItem props (k + i)) options)
  = imap (λ i, renderButton (k + i)) options.
Proof.
  revert k. induction options as [|option options IH]; intros k; [reflexivity|].
  cbn [imap omap list_omap].
  change (ListItem.querySelector_button (renderMenuItem props (k + 0) option))
    with (Some (renderButton (k + 0) option)).
  f_equal.
  rewrite (imap_ext _ (λ i, renderMenuItem props (S k + i)))
    by (intros i x _; cbn; f_equal; lia).
  rewrite IH. apply imap_ext. intros i x _. cbn. f_equal. lia.
Qed.

Lemma querySelector_button_imap (props : Props.t) (options : list string) :
  omap ListItem.querySelector_button (imap (renderMenuItem props) options)
  = imap renderButton options.
Proof. exact (querySelector_button_render props options 0). Qed.

(** A flush with nothing queued does nothing. *)
Lemma flushJobs_idle (props : Props.t) (s : State) :
  effectQueued s = false → flushJobs props s = Normal tt s.
Proof. intros Hq. unfold flushJobs. rewrite bind_gets, Hq. reflexivity. Qed.

(** The flush after a closing: the watcher finds the menu closed and does
    nothing, the render empties the refs. *)
Lemma flushJobs_closed (props : Props.t) (s : State) :
  effectQueued s = true → isMenuOpened s = false →
  flushJobs props s = Normal tt (with_menuItems [] (with_effectQueued false s)).
Proof.
  intros Hq Hclosed. unfold flushJobs. rewrite bind_gets, Hq.
  unfold when at 1. rewrite bind_modify.
  unfold mbind at 1, M_bind at 1.
  rewrite watchEffect_callback_closed by exact Hclosed.
  rewrite bind_gets. unfold render. rewrite bind_modify, !bind_gets.
  cbn [isMenuOpened menuItems with_menuItems with_effectQueued].
  rewrite Hclosed. reflexivity.
Qed.

(** The flush after an opening: the watcher runs on the refs the last
    render left, the render fills the refs, and when that changed them the
    watcher runs again.  Either way the handle set is that of the rendered
    buttons; every run of the watcher schedules a timer. *)
Lemma flushJobs_opened (props : Props.t) (s : State) :
  effectQueued s = true → isMenuOpened s = true →
  let rendered := imap (renderMenuItem props) (Props.options props) in
  let buttons := imap renderButton (Props.options props) in
  ∃ s', flushJobs props s = Normal tt s'
        ∧ isMenuOpened s' = true
        ∧ effectQueued s' = false
        ∧ menuItems s' = rendered
        ∧ menuItemButtons s' = buttons
        ∧ activeElement s' =
            match buttons with
            | first :: _ => Some first
            | [] =>
                match omap ListItem.querySelector_button (menuItems s) with
                | stale :: _ => Some stale
                | [] => activeElement s
                end
            end
        ∧ timers s' = timers s + (if bool_decide (menuItems s = rendered) then 1 else 2)
        ∧ clickListener s' = clickListener s
        ∧ emitted s' = emitted s
        ∧ principalMenu s' = principalMenu s
        ∧ defaultPrevented s' = defaultPrevented s.
Proof.
  intros Hq Hopen. cbv zeta. unfold flushJobs. rewrite bind_gets, Hq.
  unfold when at 1. rewrite bind_modify.
  unfold mbind at 1, M_bind at 1.
  rewrite (watchEffect_callback_opened (with_effectQueued false s)) by exact Hopen.
  cbv zeta. rewrite bind_gets. unfold render. rewrite bind_modify, !bind_gets.
  cbn [isMenuOpened menuItems menuItemButtons activeElement timers
       with_menuItems with_timers with_activeElement with_menuItemButtons
       with_effectQueued].
  rewrite Hopen. cbn [andb].
  case_bool_decide as Hsame.
  - cbn [negb when]. eexists. split; [reflexivity|].
    cbn [isMenuOpened menuItems menuItemButtons activeElement timers effectQueued
         clickListener emitted principalMenu defaultPrevented
         with_menuItems with_timers with_activeElement with_menuItemButtons
         with_effectQueued].
    rewrite Hsame, querySelector_button_imap.
    split; [exact Hopen|]. split; [reflexivity|]. split; [reflexivity|].
    split; [reflexivity|]. split; [by destruct (imap renderButton _)|].
    split; [lia|]. by repeat split.
  - cbn [negb when].
    rewrite watchEffect_callback_opened by exact Hopen. cbv zeta.
    eexists. split; [reflexivity|].
    cbn [isMenuOpened menuItems menuItemButtons activeElement timers effectQueued
         clickListener emitted principalMenu defaultPrevented
         with_menuItems with_timers with_activeElement with_menuItemButtons
         with_effectQueued].
    rewrite querySelector_button_imap.
    split; [exact Hopen|]. split; [reflexivity|]. split; [reflexivity|].
    split; [reflexivity|]. split; [reflexivity|].
    split; [lia|]. by repeat split.
Qed.

(** Opening a closed menu, up to the end of the flush that follows. *)
Lemma openMenu_flushJobs (props : Props.t) (s : State) :
  isMenuOpened s = false →
  let rendered := imap (renderMenuItem props) (Props.options props) in
  let buttons := imap renderButton (Props.options props) in
  ∃ s', (openMenu;; flushJobs props) s = Normal tt s'
        ∧ isMenuOpened s' = true
        ∧ effectQueued s' = false
        ∧ menuItems s' = rendered
        ∧ menuItemButtons s' = buttons
        ∧ activeElement s' =
            match buttons with
            | first :: _ => Some first
            | [] =>
                match omap ListItem.querySelector_button (menuItems s) with
                | stale :: _ => Some stale
                | [] => activeElement s
                end
            end
        ∧ timers s' = timers s + (if bool_decide (menuItems s = rendered) then 1 else 2)
        ∧ clickListener s' = clickListener s
        ∧ emitted s' = emitted s
        ∧ principalMenu s' = principalMenu s
        ∧ defaultPrevented s' = defaultPrevented s.
Proof.
  intros Hclosed. cbv zeta.
  unfold openMenu, isMenuOpened_set. rewrite bind_modify, Hclosed.
  change (bool_decide (false = true)) with false. cbv iota.
  exact (flushJobs_opened props (with_effectQueued true (with_isMenuOpened true s))
           eq_refl eq_refl).
Qed.

(** C2: opening a closed menu returns with the menu open and the handle
    set rebuilt from the options, one handle per option in their order.
    With at least one option the focus is on the handle at index 0,
    whatever the current value is; with no option the handle set is empty
    and focusing the first handle does nothing: the focus is where the
    watcher's run on the refs of the last render left it, which is where it
    was when no item was rendered before. *)
Theorem openMenu_focuses_first (props : Props.t) (s : State)
    (Hclosed : isMenuOpened s = false) :
  ∃ s', (openMenu;; flushJobs props) s = Normal tt s'
        ∧ isMenuOpened s' = true
        ∧ length (menuItemButtons s') = length (Props.options props)
        ∧ (∀ (index : nat) (option : string),
              Props.options props !! index = Some option →
              menuItemButtons s' !! index = Some (renderButton index option))
        ∧ match Props.options props with
          | first :: _ =>
              menuItemButtons s' !! 0 = Some (renderButton 0 first)
              ∧ activeElement s' = Some (renderButton 0 first)
          | [] =>
              menuItemButtons s' = []
              ∧ activeElement s' =
                  match omap ListItem.querySelector_button (menuItems s) with
                  | stale :: _ => Some stale
                  | [] => activeElement s
                  end
              ∧ (menuItems s = [] → activeElement s' = activeElement s)
          end.
Proof.
  destruct (openMenu_flushJobs props s Hclosed)
    as (s' & Hrun & Hopen & _ & _ & Hb & Ha & _).
  cbv zeta in Hb, Ha.
  exists s'. split; [exact Hrun|]. split; [exact Hopen|].
  rewrite Hb. split; [apply length_imap|]. split.
  - intros index option Hoption. rewrite list_lookup_imap, Hoption. reflexivity.
  - destruct (Props.options props) as [|first rest].
    + split; [reflexivity|]. split; [exact Ha|]. intros Hnone.
      rewrite Ha, Hnone. reflexivity.
    + by split.
Qed.

Lemma openMenu_focuses_first_witness :
  isMenuOpened (mounted trigger0) = false
  ∧ (∃ s', (openMenu;; flushJobs props0) (mounted trigger0) = Normal tt s'
           ∧ isMenuOpened s' = true
           ∧ menuItemButtons s' = [alpha; beta; gamma]
           ∧ activeElement s' = Some alpha)
  ∧ (∃ s', (openMenu;; flushJobs (props_with_value "Beta")) (mounted trigger0)
             = Normal tt s'
           ∧ isMenuOpened s' = true
           ∧ menuItemButtons s' = []
           ∧ activeElement s' = activeElement (mounted trigger0)).
Proof.
  split; [reflexivity|]. split.
  - destruct (openMenu_focuses_first props0 (mounted trigger0) eq_refl)
      as (s' & Hrun & Hopen & _ & _ & _ & Hfocus).
    exists s'. split; [exact Hrun|]. split; [exact Hopen|]. split; [|exact Hfocus].
    vm_compute in Hrun. injection Hrun as <-. reflexivity.
  - destruct (openMenu_focuses_first (props_with_value "Beta") (mounted trigger0) eq_refl)
      as (s' & Hrun & Hopen & _ & _ & Hb & _ & Hfocus).
    exists s'. split; [exact Hrun|]. split; [exact Hopen|]. split; [exact Hb|].
    exact (Hfocus eq_refl).
Defined.

(** The handles of an opened menu are pairwise distinct, duplicates among
    the options or not. *)
Lemma renderButton_NoDup (options : list string) : NoDup (imap renderButton options).
Proof.
  apply NoDup_alt. intros i j button Hi Hj.
  rewrite list_lookup_imap in Hi, Hj.
  destruct (options !! i) as [oi|]; [|done].
  destruct (options !! j) as [oj|]; [|done].
  cbn in Hi, Hj. injection Hi as <-. injection Hj as Hnode _. lia.
Qed.

(** A click on the trigger of a closed menu with no listener registered is
    that opening: nothing on the document closes the menu again. *)
Lemma ClickTrigger_opens (props : Props.t) (s : State) (trigger : Element.t) :
  isMenuOpened s = false →
  principalMenu s = Some trigger →
  clickListener s = false →
  react props ClickTrigger s = (openMenu;; flushJobs props) (with_defaultPrevented false s).
Proof.
  intros Hclosed Htrigger Hnone.
  unfold react. rewrite bind_modify, bind_gets.
  set (s0 := with_defaultPrevented false s).
  change (principalMenu s0) with (principalMenu s). rewrite Htrigger.
  unfold handlePrincipalButtonClick.
  rewrite <- bind_assoc, bind_gets.
  change (isMenuOpened s0) with (isMenuOpened s). rewrite Hclosed.
  rewrite (bind_assoc openMenu (λ _, flushJobs props)
             (λ _, document_click (Event.mk "" trigger);; flushJobs props) s0).
  unfold mbind at 1, M_bind at 1.
  destruct (openMenu_flushJobs props s0 Hclosed)
    as (s' & Hrun & _ & Hq & _ & _ & _ & _ & Hl & _).
  rewrite Hrun. unfold document_click. rewrite <- bind_assoc, bind_gets.
  rewrite Hl. change (clickListener s0) with (clickListener s). rewrite Hnone.
  change ((when false _;; flushJobs props) s') with (flushJobs props s').
  by apply flushJobs_idle.
Qed.

(** *** The listener on the document *)

Create HintDb keeps.

Lemma keeps_ret (P : State → Prop) {A : Type} (a : A) : keeps P (mret a).
Proof. intros s Hs. exact Hs. Qed.

Lemma keeps_skip (P : State → Prop) : keeps P skip.
Proof. intros s Hs. exact Hs. Qed.

Lemma keeps_throw (P : State → Prop) {A : Type} (e : JS.Exception) : keeps P (@throw A e).
Proof. intros s Hs. exact Hs. Qed.

Lemma keeps_gets (P : State → Prop) {A : Type} (f : State → A) : keeps P (gets f).
Proof. intros s Hs. exact Hs. Qed.

Lemma keeps_bind (P : State → Prop) {A B : Type} (m : M A) (k : A → M B) :
  keeps P m → (∀ a, keeps P (k a)) → keeps P (m ≫= k).
Proof.
  intros Hm Hk s Hs. unfold mbind, M_bind.
  specialize (Hm s Hs). destruct (m s) as [a s'|e s']; [by apply Hk | exact Hm].
Qed.

Lemma keeps_when (P : State → Prop) (b : bool) (m : M unit) :
  keeps P m → keeps P (when b m).
Proof. intros Hm. destruct b; [exact Hm | apply keeps_skip]. Qed.

Lemma keeps_forEach (P : State → Prop) {A : Type} (l : list A) (f : A → M unit) :
  (∀ x, keeps P (f x)) → keeps P (forEach l f).
Proof.
  intros Hf. induction l as [|x l IH]; [apply keeps_skip|].
  cbn [forEach]. apply keeps_bind; [apply Hf | intros _; exact IH].
Qed.

Lemma keeps_tidy_modify (f : State → State) : same_gate f → keeps tidy (modify f).
Proof.
  intros Hf s Hs. unfold modify, final, tidy. destruct (Hf s) as [-> ->]. exact Hs.
Qed.

Lemma same_gate_activeElement v : same_gate (with_activeElement v).
Proof. by intros s. Qed.
Lemma same_gate_defaultPrevented v : same_gate (with_defaultPrevented v).
Proof. by intros s. Qed.
Lemma same_gate_effectQueued v : same_gate (with_effectQueued v).
Proof. by intros s. Qed.
Lemma same_gate_menuItems (f : State → list ListItem.t) :
  same_gate (λ s, with_menuItems (f s) s).
Proof. by intros s. Qed.
Lemma same_gate_menuItemButtons (f : State → list Element.t) :
  same_gate (λ s, with_menuItemButtons (f s) s).
Proof. by intros s. Qed.
Lemma same_gate_emitted (f : State → list Emit) :
  same_gate (λ s, with_emitted (f s) s).
Proof. by intros s. Qed.
Lemma same_gate_timers (f : State → nat) :
  same_gate (λ s, with_timers (f s) s).
Proof. by intros s. Qed.

Lemma keeps_tidy_closeMenu : keeps tidy closeMenu.
Proof.
  intros s _. destruct (closeMenu_returns s) as (s' & -> & _ & Hl & _).
  unfold final, tidy. congruence.
Qed.

Lemma keeps_tidy_openMenu : keeps tidy openMenu.
Proof.
  intros s Hs. unfold openMenu, isMenuOpened_set, modify, final.
  case_bool_decide as Hopen; [exact Hs | by intros _].
Qed.

Lemma keeps_tidy_removeEventListener : keeps tidy document_removeEventListener.
Proof. intros s _. by unfold tidy. Qed.

#[export] Hint Resolve keeps_ret keeps_skip keeps_throw keeps_gets keeps_bind
  keeps_when keeps_forEach keeps_tidy_modify keeps_tidy_closeMenu
  keeps_tidy_openMenu keeps_tidy_removeEventListener
  same_gate_activeElement same_gate_defaultPrevented same_gate_effectQueued
  same_gate_menuItems same_gate_menuItemButtons same_gate_emitted
  same_gate_timers : keeps.
#[export] Hint Extern 2 (keeps _ (match ?x with _ => _ end)) => destruct x : keeps.

(** Solves [keeps tidy m] for a script built from the primitives. *)
Ltac keeps_tidy :=
  unfold handlePrincipalButtonFocusIn, handlePrincipalButtonClick,
    handleMenuButtonClick, handleMenuButtonKeyInput, closeMenuOnOutsideClick,
    onBeforeUnmount_callback, watchEffect_callback, focusFirstMenuButton,
    focusPrincipalMenu, principalMenu_focus, handlePrincipalButtonFocusIn,
    menuItemButtons_focus, setTimeout, emits, preventDefault, focus;
  auto 40 with keeps.

Lemma keeps_tidy_handlePrincipalButtonFocusIn props event :
  keeps tidy (handlePrincipalButtonFocusIn props event).
Proof. keeps_tidy. Qed.

Lemma keeps_tidy_handlePrincipalButtonClick : keeps tidy handlePrincipalButtonClick.
Proof. keeps_tidy. Qed.

Lemma keeps_tidy_handleMenuButtonClick props event : keeps tidy (handleMenuButtonClick props event).
Proof. keeps_tidy. Qed.

Lemma keeps_tidy_handleMenuButtonKeyInput props event :
  keeps tidy (handleMenuButtonKeyInput props event).
Proof. keeps_tidy. Qed.

Lemma keeps_tidy_closeMenuOnOutsideClick event :
  keeps tidy (closeMenuOnOutsideClick event).
Proof. keeps_tidy. Qed.

Lemma keeps_tidy_watchEffect_callback : keeps tidy watchEffect_callback.
Proof. keeps_tidy. Qed.

Lemma keeps_tidy_flushJobs props : keeps tidy (flushJobs props).
Proof.
  unfold flushJobs, render.
  pose proof keeps_tidy_watchEffect_callback. auto 30 with keeps.
Qed.

(** Every input other than a timer keeps the discipline. *)
Lemma react_keeps_tidy_but_Timeout (props : Props.t) (i : Input) :
  i ≠ Timeout → keeps tidy (react props i).
Proof.
  intros Hi.
  pose proof (keeps_tidy_handlePrincipalButtonFocusIn props).
  pose proof keeps_tidy_handlePrincipalButtonClick.
  pose proof keeps_tidy_handleMenuButtonClick.
  pose proof keeps_tidy_handleMenuButtonKeyInput.
  pose proof keeps_tidy_closeMenuOnOutsideClick.
  pose proof (keeps_tidy_flushJobs props).
  destruct i; try done;
    unfold react, document_click, onBeforeUnmount_callback, principalMenu_focus,
      focus;
    auto 40 with keeps.
Qed.

(** So does a timer that runs while the menu is open. *)
Lemma react_keeps_tidy (props : Props.t) (i : Input) (s : State) :
  tidy s →
  (i = Timeout → isMenuOpened s = true) →
  tidy (final (react props i s)).
Proof.
  intros Hs Htimer.
  destruct i;
    try (by apply (react_keeps_tidy_but_Timeout props); [discriminate | exact Hs]).
  specialize (Htimer eq_refl). clear Hs.
  unfold react, setTimeout_callback, document_addEventListener,
    mbind, M_bind, modify, gets, skip, mret, M_ret.
  unfold final, tidy. cbn. destruct (timers s); cbn; by intros _.
Qed.

(** A timer of an open menu registers the listener; one registration is
    all there is, however many timers run. *)
Lemma Timeout_registers (props : Props.t) (s : State) :
  timers s ≠ 0 →
  ∃ s', react props Timeout s = Normal tt s'
        ∧ clickListener s' = true
        ∧ timers s' = pred (timers s)
        ∧ isMenuOpened s' = isMenuOpened s.
Proof.
  intros Hpending. unfold react, setTimeout_callback. script. cbn.
  destruct (timers s) as [|n]; [done|]. eexists. split; [reflexivity|]. by repeat split.
Qed.

(** [closeMenu] and teardown clear the listener and leave the timers
    alone. *)
Lemma closing_leaves_timers (s : State) :
  (∃ s', closeMenu s = Normal tt s' ∧ clickListener s' = false ∧ timers s' = timers s)
  ∧ (∃ s', onBeforeUnmount_callback s = Normal tt s'
           ∧ clickListener s' = false ∧ timers s' = timers s).
Proof.
  split.
  - destruct (closeMenu_returns s) as (s' & Hrun & _ & Hl & _ & _ & _ & _ & Ht & _).
    by exists s'.
  - eexists. split; [reflexivity|]. by split.
Qed.

(** C5 fails on the code: the installation deferred by [setTimeout] is not
    cancelled when the menu closes or the component is torn down.  Open by
    a click, close with Escape before the timer runs, let the timer run:
    the menu is closed and the listener is registered.  The next click on
    the trigger opens the menu and the registered listener closes it on the
    same click, and the timer of that opening registers the listener
    again.  Teardown before the timer runs leaves the listener registered
    for good. *)
Theorem outside_click_listener_leaks :
  let leaked := final (run props0 [ClickTrigger; KeyMenu "Escape" alpha; Timeout]
                           (mounted trigger0)) in
  let again := final (run props0 [ClickTrigger; Timeout] leaked) in
  let unmounted := final (run props0 [ClickTrigger; BeforeUnmount; Timeout]
                              (mounted trigger0)) in
  (isMenuOpened leaked = false ∧ clickListener leaked = true ∧ ¬ tidy leaked)
  ∧ (isMenuOpened (final (react props0 ClickTrigger leaked)) = false
     ∧ isMenuOpened again = false ∧ clickListener again = true)
  ∧ clickListener unmounted = true.
Proof.
  cbv zeta. split; [|split]; [split; [|split] | |].
  - vm_compute. reflexivity.
  - vm_compute. reflexivity.
  - intros Htidy. specialize (Htidy eq_refl). vm_compute in Htidy. discriminate.
  - by vm_compute.
  - vm_compute. reflexivity.
Qed.

(** *** The scenario of the specification *)

(** Options Alpha, Beta, Gamma with Beta selected: opening focuses Alpha,
    ArrowDown twice reaches Gamma, once more wraps to Alpha, and a click on
    Gamma emits "Gamma", closes the menu and refocuses the trigger. *)
Example scenario :
  let opened := final (run props0 [ClickTrigger; Timeout] (mounted trigger0)) in
  let twice := final (run props0 [KeyMenu "ArrowDown" alpha; KeyMenu "ArrowDown" beta] opened) in
  let wrapped := final (react props0 (KeyMenu "ArrowDown" gamma) twice) in
  let committed := run props0 [ClickMenu gamma] wrapped in
  activeElement opened = Some alpha
  ∧ clickListener opened = true
  ∧ activeElement twice = Some gamma
  ∧ activeElement wrapped = Some alpha
  ∧ returns committed = true
  ∧ emitted (final committed) = [update_modelValue "Gamma"]
  ∧ isMenuOpened (final committed) = false
  ∧ clickListener (final committed) = false
  ∧ activeElement (final committed) = Some trigger0.
Proof. vm_compute. by repeat split. Qed.

(** A click that lands on the check mark inside the selected button, not
    on the button: the menu closes, the trigger is refocused, nothing is
    emitted. *)
Example commit_on_check_mark :
  let opened := final (run props0 [ClickTrigger; Timeout] (mounted trigger0)) in
  let clicked := run props0 [ClickMenu (renderIcon 1)] opened in
  renderIcon 1 = checkMark
  ∧ returns clicked = true
  ∧ emitted (final clicked) = []
  ∧ isMenuOpened (final clicked) = false
  ∧ activeElement (final clicked) = Some trigger0.
Proof. vm_compute. by repeat split. Qed.

(** * Further properties of the script *)

(** ** The trigger *)

(** The click handler of the trigger on its own, before the flush and
    before the click reaches the document: it returns and flips the open
    flag; when it closes it clears the listener.  Focus, emitted events,
    handle set and timers are not its business. *)
Lemma handlePrincipalButtonClick_toggles (s : State) :
  ∃ s', handlePrincipalButtonClick s = Normal tt s'
        ∧ isMenuOpened s' = negb (isMenuOpened s)
        ∧ clickListener s' = (if isMenuOpened s then false else clickListener s)
        ∧ activeElement s' = activeElement s
        ∧ emitted s' = emitted s
        ∧ menuItemButtons s' = menuItemButtons s
        ∧ timers s' = timers s
        ∧ ∃ s'', handlePrincipalButtonClick s' = Normal tt s''
                 ∧ isMenuOpened s'' = isMenuOpened s.
Proof.
  assert (Hstep : ∀ s0, ∃ s1, handlePrincipalButtonClick s0 = Normal tt s1
            ∧ isMenuOpened s1 = negb (isMenuOpened s0)
            ∧ clickListener s1 = (if isMenuOpened s0 then false else clickListener s0)
            ∧ activeElement s1 = activeElement s0
            ∧ emitted s1 = emitted s0
            ∧ menuItemButtons s1 = menuItemButtons s0
            ∧ timers s1 = timers s0).
  { intros s0. unfold handlePrincipalButtonClick. rewrite bind_gets.
    destruct (isMenuOpened s0) eqn:Hopen.
    - rewrite (closeMenu_opened s0 Hopen). eexists. split; [reflexivity|].
      by repeat split.
    - unfold openMenu, isMenuOpened_set, modify. rewrite Hopen.
      eexists. split; [reflexivity|]. by repeat split. }
  destruct (Hstep s) as (s' & Hrun & Hopen & Hl & Ha & He & Hb & Ht).
  exists s'. repeat (split; [assumption|]).
  destruct (Hstep s') as (s'' & Hrun' & Hopen' & _).
  exists s''. split; [exact Hrun'|].
  rewrite Hopen', Hopen. apply negb_involutive.
Qed.

(** ** The listener on the document *)

(** X2: the outside-click listener always returns.  On a target that is a
    button of the handle set it changes nothing at all; on any other
    target (the trigger, an icon inside a button, a button outside the
    set) it leaves the menu closed and itself unregistered.  It never
    moves the focus, emits or touches the handle set. *)
Theorem closeMenuOnOutsideClick_frame (event : Event.t) (s : State) :
  ∃ s', closeMenuOnOutsideClick event s = Normal tt s'
        ∧ activeElement s' = activeElement s
        ∧ emitted s' = emitted s
        ∧ menuItemButtons s' = menuItemButtons s
        ∧ timers s' = timers s
        ∧ if Element.instanceof (Event.target event) HTMLButtonElement
             && JS.includes (menuItemButtons s) (Event.target event)
          then s' = s
          else isMenuOpened s' = false ∧ clickListener s' = false.
Proof.
  unfold closeMenuOnOutsideClick. rewrite bind_gets.
  destruct (Element.instanceof (Event.target event) HTMLButtonElement
            && JS.includes (menuItemButtons s) (Event.target event)).
  - exists s. by repeat split.
  - cbn [negb when].
    destruct (closeMenu_returns s)
      as (s' & Hrun & Ho & Hl & _ & _ & Hb & Ha & Ht & He & _).
    exists s'. by repeat split.
Qed.

(** ** Closing without a trigger *)

(** X3: when the trigger is not mounted ([principalMenu.value] is null), a
    commit and Escape on a menu button still return with the menu closed
    and the listener cleared; the focus stays where it was, and the commit
    still emits as usual. *)
Theorem closing_without_trigger (props : Props.t) (s : State) (event : Event.t)
    (Hnone : principalMenu s = None)
    (Hbutton : Element.interface (Event.target event) = HTMLButtonElement) :
  (∃ s', handleMenuButtonClick props event s = Normal tt s'
         ∧ isMenuOpened s' = false
         ∧ clickListener s' = false
         ∧ activeElement s' = activeElement s
         ∧ emitted s' =
             emitted s ++
               (if JS.truthy (Element.textContent (Event.target event))
                then [update_modelValue (JS.trim (Element.textContent (Event.target event)))]
                else []))
  ∧ (∃ s', handleMenuButtonKeyInput props (Event.mk "Escape" (Event.target event)) s
             = Normal tt s'
           ∧ isMenuOpened s' = false
           ∧ clickListener s' = false
           ∧ activeElement s' = activeElement s
           ∧ emitted s' = emitted s).
Proof.
  assert (Hclose : ∀ s0, principalMenu s0 = None →
            ∃ s1, (closeMenu;; focusPrincipalMenu props) s0 = Normal tt s1
                  ∧ isMenuOpened s1 = false ∧ clickListener s1 = false
                  ∧ activeElement s1 = activeElement s0 ∧ emitted s1 = emitted s0).
  { intros s0 H0.
    destruct (closeMenu_returns s0)
      as (s1 & Hrun & Ho & Hl & Hp & _ & _ & Ha & _ & He & _).
    exists s1. unfold mbind, M_bind. rewrite Hrun.
    unfold focusPrincipalMenu. rewrite bind_gets, Hp, H0. by repeat split. }
  split.
  - rewrite handleMenuButtonClick_unfold. cbv zeta.
    unfold Element.instanceof. rewrite bool_decide_eq_true_2 by exact Hbutton.
    cbn [andb].
    destruct (JS.truthy (Element.textContent (Event.target event))).
    + destruct (Hclose (with_emitted (emitted s ++
                 [update_modelValue (JS.trim (Element.textContent (Event.target event)))]) s)
                 Hnone) as (s1 & Hrun & Ho & Hl & Ha & He).
      exists s1. by repeat split.
    + destruct (Hclose s Hnone) as (s1 & Hrun & Ho & Hl & Ha & He).
      exists s1. rewrite app_nil_r. by repeat split.
  - rewrite handleMenuButtonKeyInput_Escape by exact Hbutton.
    destruct (Hclose s Hnone) as (s1 & Hrun & Ho & Hl & Ha & He).
    exists s1. by repeat split.
Qed.

Lemma closing_without_trigger_witness :
  let s := with_activeElement (Some gamma)
             {| isMenuOpened := true; principalMenu := None; menuItems := [];
                menuItemButtons := [gamma]; activeElement := None;
                clickListener := true; timers := 0; emitted := [];
                defaultPrevented := false; effectQueued := false |} in
  (principalMenu s = None ∧ Element.interface gamma = HTMLButtonElement)
  ∧ (∃ s', handleMenuButtonClick props0 (Event.mk "" gamma) s = Normal tt s'
           ∧ isMenuOpened s' = false ∧ clickListener s' = false
           ∧ activeElement s' = Some gamma
           ∧ emitted s' = [update_modelValue "Gamma"])
  ∧ (∃ s', handleMenuButtonKeyInput props0 (Event.mk "Escape" gamma) s = Normal tt s'
           ∧ isMenuOpened s' = false ∧ clickListener s' = false
           ∧ activeElement s' = Some gamma ∧ emitted s' = []).
Proof.
  intros s. split; [by split|].
  exact (closing_without_trigger props0 s (Event.mk "" gamma) eq_refl eq_refl).
Defined.

(** ** The watcher *)

Lemma querySelector_button_is_button (menuItem : ListItem.t) (button : Element.t) :
  ListItem.querySelector_button menuItem = Some button →
  Element.interface button = HTMLButtonElement.
Proof.
  unfold ListItem.querySelector_button. intros Hq.
  destruct (list_find _ _) as [[i e]|] eqn:Hf; [|done].
  injection Hq as <-. by apply list_find_Some in Hf as (_ & Hb & _).
Qed.

Lemma omap_length_le {A B : Type} (f : A → option B) (l : list A) :
  (length (omap f l) ≤ length l)%nat.
Proof.
  induction l as [|x l IH]; [done|]. cbn [omap list_omap length].
  destruct (f x); cbn [length]; fold (omap f l); lia.
Qed.

(** X4: on an open menu the watcher always returns, also for an empty list
    and for items without a button.  The handle set it leaves is read off
    the rendered items alone, in their order, at most one handle per item
    and each a button element: no handle of the set it found survives.
    The first handle, if any, has the focus; one timer more is pending;
    the open flag, the listener and the emitted events are as before. *)
Theorem watchEffect_callback_rebuilds (s : State) (Hopen : isMenuOpened s = true) :
  ∃ s', watchEffect_callback s = Normal tt s'
        ∧ menuItemButtons s' = omap ListItem.querySelector_button (menuItems s)
        ∧ Forall (λ button, Element.interface button = HTMLButtonElement)
                 (menuItemButtons s')
        ∧ (length (menuItemButtons s') ≤ length (menuItems s))%nat
        ∧ activeElement s' =
            match menuItemButtons s' with
            | first :: _ => Some first
            | [] => activeElement s
            end
        ∧ timers s' = S (timers s)
        ∧ isMenuOpened s' = true
        ∧ clickListener s' = clickListener s
        ∧ emitted s' = emitted s.
Proof.
  rewrite (watchEffect_callback_opened s Hopen). cbv zeta.
  eexists. split; [reflexivity|].
  cbn [menuItemButtons activeElement timers isMenuOpened clickListener emitted
       with_timers with_activeElement with_menuItemButtons].
  split; [reflexivity|]. split.
  { apply Forall_forall. intros button Hin.
    apply list_elem_of_omap in Hin as (menuItem & _ & Hq).
    by eapply querySelector_button_is_button. }
  split; [apply omap_length_le|].
  by repeat split.
Qed.

Lemma watchEffect_callback_rebuilds_witness :
  let stale := Element.mk 50 HTMLButtonElement "old" in
  let bare := ListItem.mk 10 [checkMark] in
  let s := with_menuItems [bare; renderMenuItem props0 2 "Gamma"] (opened_on [stale]) in
  isMenuOpened s = true
  ∧ ∃ s', watchEffect_callback s = Normal tt s'
          ∧ menuItemButtons s' = [gamma]
          ∧ activeElement s' = Some gamma
          ∧ timers s' = 1.
Proof.
  intros stale bare s. split; [reflexivity|].
  destruct (watchEffect_callback_rebuilds s eq_refl)
    as (s' & Hrun & Hb & _ & _ & Ha & Ht & _).
  exists s'. split; [exact Hrun|]. split; [exact Hb|]. split; [|exact Ht].
  rewrite Ha, Hb. reflexivity.
Defined.

(** ** Keys on a menu button, further *)

Lemma indexOf_elem {A : Type} `{EqDecision A} (l : list A) (x : A) :
  x ∈ l → ∃ i, JS.indexOf l x = Z.of_nat i ∧ l !! i = Some x.
Proof.
  intros Hx. unfold JS.indexOf.
  destruct (list_find_elem_of (λ y, y = x) l x Hx eq_refl) as [[i y] Hf].
  rewrite Hf. apply list_find_Some in Hf as (Hi & -> & _). by exists i.
Qed.

(** The arrows, from the index [indexOf] finds. *)
Lemma ArrowDown_from_index (props : Props.t) (s : State) (target : Element.t) (i : nat) :
  Element.interface target = HTMLButtonElement →
  JS.indexOf (menuItemButtons s) target = Z.of_nat i →
  i < length (menuItemButtons s) →
  ∃ next, menuItemButtons s !! ((i + 1) mod length (menuItemButtons s)) = Some next
          ∧ handleMenuButtonKeyInput props (Event.mk "ArrowDown" target) s =
              Normal tt (with_activeElement (Some next) (with_defaultPrevented true s)).
Proof.
  intros Hb Hidx Hlt.
  rewrite handleMenuButtonKeyInput_ArrowDown by exact Hb. cbv zeta. rewrite Hidx.
  set (n := length (menuItemButtons s)) in *.
  destruct (decide (i + 1 < n)) as [Hin | Hlast].
  - destruct (lookup_lt_is_Some_2 (menuItemButtons s) (i + 1) Hin) as [next Hnext].
    exists next. rewrite Nat.mod_small by lia. split; [exact Hnext|].
    replace ((0 <=? Z.of_nat i)%Z && (Z.of_nat i <? Z.of_nat n - 1)%Z) with true
      by (symmetry; apply andb_true_iff; split;
          [apply Z.leb_le | apply Z.ltb_lt]; lia).
    replace (Z.of_nat i =? Z.of_nat n - 1)%Z with false
      by (symmetry; apply Z.eqb_neq; lia).
    unfold when. rewrite bind_skip_r. apply menuItemButtons_focus_Some.
    replace (Z.of_nat i + 1)%Z with (Z.of_nat (i + 1)) by lia.
    by rewrite at_index_of_nat.
  - destruct (lookup_lt_is_Some_2 (menuItemButtons s) 0 ltac:(fold n; lia))
      as [next Hnext].
    exists next. replace (i + 1) with n by lia. rewrite Nat.Div0.mod_same.
    split; [exact Hnext|].
    replace ((0 <=? Z.of_nat i)%Z && (Z.of_nat i <? Z.of_nat n - 1)%Z) with false
      by (symmetry; apply andb_false_iff; right; apply Z.ltb_ge; lia).
    replace (Z.of_nat i =? Z.of_nat n - 1)%Z with true
      by (symmetry; apply Z.eqb_eq; lia).
    unfold when.
    change ((skip;; menuItemButtons_focus 0) (with_defaultPrevented true s))
      with (menuItemButtons_focus 0 (with_defaultPrevented true s)).
    apply menuItemButtons_focus_Some. exact Hnext.
Qed.

Lemma ArrowUp_from_index (props : Props.t) (s : State) (target : Element.t) (i : nat) :
  Element.interface target = HTMLButtonElement →
  JS.indexOf (menuItemButtons s) target = Z.of_nat i →
  i < length (menuItemButtons s) →
  ∃ previous,
    menuItemButtons s !! ((i + length (menuItemButtons s) - 1)
                            mod length (menuItemButtons s)) = Some previous
    ∧ handleMenuButtonKeyInput props (Event.mk "ArrowUp" target) s =
        Normal tt (with_activeElement (Some previous) (with_defaultPrevented true s)).
Proof.
  intros Hb Hidx Hlt.
  rewrite handleMenuButtonKeyInput_ArrowUp by exact Hb. cbv zeta. rewrite Hidx.
  set (n := length (menuItemButtons s)) in *.
  destruct i as [|j].
  - destruct (lookup_lt_is_Some_2 (menuItemButtons s) (n - 1) ltac:(fold n; lia))
      as [previous Hprev].
    exists previous. replace (0 + n - 1) with (n - 1) by lia.
    rewrite Nat.mod_small by lia. split; [exact Hprev|].
    change ((0 <? Z.of_nat 0)%Z) with false.
    change (Z.of_nat 0 =? 0)%Z with true.
    unfold when. cbn [andb].
    change ((skip;; menuItemButtons_focus ?k) ?s1) with (menuItemButtons_focus k s1).
    apply menuItemButtons_focus_Some.
    replace (Z.of_nat n - 1)%Z with (Z.of_nat (n - 1)) by lia.
    by rewrite at_index_of_nat.
  - destruct (lookup_lt_is_Some_2 (menuItemButtons s) j ltac:(fold n; lia))
      as [previous Hprev].
    exists previous. replace (S j + n - 1) with (j + 1 * n) by lia.
    rewrite Nat.Div0.mod_add, Nat.mod_small by lia. split; [exact Hprev|].
    replace ((0 <? Z.of_nat (S j))%Z && (Z.of_nat (S j) <=? Z.of_nat n - 1)%Z)
      with true
      by (symmetry; apply andb_true_iff; split;
          [apply Z.ltb_lt | apply Z.leb_le]; lia).
    replace (Z.of_nat (S j) =? 0)%Z with false by (symmetry; apply Z.eqb_neq; lia).
    unfold when. rewrite bind_skip_r. apply menuItemButtons_focus_Some.
    replace (Z.of_nat (S j) - 1)%Z with (Z.of_nat j) by lia.
    by rewrite at_index_of_nat.
Qed.

Lemma handleMenuButtonKeyInput_other (props : Props.t) (target : Element.t) (key : string) (s : State) :
  key ≠ "ArrowUp" → key ≠ "ArrowDown" → key ≠ "Escape" → key ≠ "Tab" →
  handleMenuButtonKeyInput props (Event.mk key target) s = Normal tt s.
Proof.
  intros Hu Hd He Ht. unfold handleMenuButtonKeyInput. cbn [Event.key Event.target].
  apply String.eqb_neq in Hu, Hd, He, Ht. rewrite Hu, Hd, He, Ht.
  by destruct (Element.instanceof target HTMLButtonElement).
Qed.

(** X5: a key event whose target is one of the handles never throws,
    whatever the key; the handle set is untouched, and after an arrow key
    on a button the focus is on a handle of the set. *)
Theorem handleMenuButtonKeyInput_on_handle_returns (props : Props.t)
    (s : State) (key : string) (target : Element.t)
    (Hin : target ∈ menuItemButtons s) :
  ∃ s', handleMenuButtonKeyInput props (Event.mk key target) s = Normal tt s'
        ∧ menuItemButtons s' = menuItemButtons s
        ∧ (key = "ArrowUp" ∨ key = "ArrowDown" →
           Element.interface target = HTMLButtonElement →
           ∃ handle, handle ∈ menuItemButtons s ∧ activeElement s' = Some handle).
Proof.
  destruct (decide (Element.interface target = HTMLButtonElement)) as [Hb | Hb];
    [|rewrite handleMenuButtonKeyInput_not_button by exact Hb;
      exists s; by repeat split].
  destruct (indexOf_elem _ _ Hin) as (i & Hidx & Hi).
  pose proof (lookup_lt_Some _ _ _ Hi) as Hlt.
  destruct (decide (key = "ArrowUp")) as [-> | Hu].
  { destruct (ArrowUp_from_index props s target i Hb Hidx Hlt) as (previous & Hp & Hrun).
    eexists. split; [exact Hrun|]. split; [reflexivity|].
    intros _ _. exists previous. split; [by eapply list_elem_of_lookup_2 | reflexivity]. }
  destruct (decide (key = "ArrowDown")) as [-> | Hd].
  { destruct (ArrowDown_from_index props s target i Hb Hidx Hlt) as (next & Hn & Hrun).
    eexists. split; [exact Hrun|]. split; [reflexivity|].
    intros _ _. exists next. split; [by eapply list_elem_of_lookup_2 | reflexivity]. }
  destruct (decide (key = "Escape")) as [-> | He].
  { rewrite handleMenuButtonKeyInput_Escape by exact Hb.
    destruct (closeMenu_focusPrincipalMenu_returns props s)
      as (s1 & Hrun & _ & _ & _ & _ & _ & Hbs & _).
    exists s1. split; [exact Hrun|]. split; [exact Hbs|]. by intros [? | ?]. }
  destruct (decide (key = "Tab")) as [-> | Ht].
  { rewrite handleMenuButtonKeyInput_Tab by exact Hb.
    destruct (closeMenu_returns s) as (s1 & Hrun & _ & _ & _ & _ & Hbs & _).
    exists s1. split; [exact Hrun|]. split; [exact Hbs|]. by intros [? | ?]. }
  rewrite handleMenuButtonKeyInput_other by assumption.
  exists s. split; [reflexivity|]. split; [reflexivity|]. by intros [? | ?].
Qed.

Lemma handleMenuButtonKeyInput_on_handle_returns_witness :
  let s := opened_on [alpha; beta; gamma] in
  beta ∈ menuItemButtons s
  ∧ ∃ s', handleMenuButtonKeyInput props0 (Event.mk "ArrowDown" beta) s = Normal tt s'
          ∧ menuItemButtons s' = menuItemButtons s
          ∧ ∃ handle, handle ∈ menuItemButtons s ∧ activeElement s' = Some handle.
Proof.
  intros s.
  assert (Hin : beta ∈ menuItemButtons s).
  { apply (bool_decide_unpack _). vm_compute. exact I. }
  split; [exact Hin|].
  destruct (handleMenuButtonKeyInput_on_handle_returns props0 s "ArrowDown" beta Hin)
    as (s' & Hrun & Hb & Hfocus).
  exists s'. split; [exact Hrun|]. split; [exact Hb|].
  exact (Hfocus (or_intror eq_refl) eq_refl).
Defined.

(** X6: the key handler does nothing at all, not even preventing the
    default, when the target is not a button element or the key is none of
    ArrowUp, ArrowDown, Escape and Tab. *)
Theorem handleMenuButtonKeyInput_ignores (props : Props.t) (event : Event.t) (s : State)
    (Hignored :
       Element.interface (Event.target event) ≠ HTMLButtonElement
       ∨ (Event.key event ≠ "ArrowUp" ∧ Event.key event ≠ "ArrowDown"
          ∧ Event.key event ≠ "Escape" ∧ Event.key event ≠ "Tab")) :
  handleMenuButtonKeyInput props event s = Normal tt s.
Proof.
  destruct Hignored as [Hb | (Hu & Hd & He & Ht)].
  - by apply handleMenuButtonKeyInput_not_button.
  - destruct event as [key target]. by apply handleMenuButtonKeyInput_other.
Qed.

Lemma handleMenuButtonKeyInput_ignores_witness :
  let s := opened_on [alpha; beta] in
  handleMenuButtonKeyInput props0 (Event.mk "Enter" alpha) s = Normal tt s
  ∧ handleMenuButtonKeyInput props0 (Event.mk "Escape" checkMark) s = Normal tt s.
Proof.
  intros s. split.
  - refine (handleMenuButtonKeyInput_ignores props0 (Event.mk "Enter" alpha) s (or_intror _)).
    by repeat split.
  - refine (handleMenuButtonKeyInput_ignores props0 (Event.mk "Escape" checkMark) s (or_introl _)).
    discriminate.
Defined.

(** The state an arrow key leaves differs from the one it found in the
    focus and the canceled flag at most. *)
Lemma arrows_only_focus (c1 c2 : bool) (k1 k2 : Z) (s : State) :
  let s' := final ((when c1 (menuItemButtons_focus k1);;
                    when c2 (menuItemButtons_focus k2)) s) in
  isMenuOpened s' = isMenuOpened s
  ∧ clickListener s' = clickListener s
  ∧ emitted s' = emitted s
  ∧ menuItemButtons s' = menuItemButtons s
  ∧ timers s' = timers s
  ∧ principalMenu s' = principalMenu s.
Proof.
  cbv zeta. unfold when, menuItemButtons_focus, focus, throw, skip, modify, gets,
    mbind, M_bind, mret, M_ret.
  destruct c1, c2; cbn;
    repeat (match goal with
            | |- context [JS.at_index ?l ?k] => destruct (JS.at_index l k); cbn
            end);
    by repeat split.
Qed.

(** X7: an arrow key never closes the menu, never emits, and never touches
    the listener, the handle set or the timers, on any target and in any
    state, also when it ends in an exception. *)
Theorem handleMenuButtonKeyInput_arrows_frame (props : Props.t)
    (s : State) (key : string) (target : Element.t)
    (Hkey : key = "ArrowUp" ∨ key = "ArrowDown") :
  let s' := final (handleMenuButtonKeyInput props (Event.mk key target) s) in
  isMenuOpened s' = isMenuOpened s
  ∧ clickListener s' = clickListener s
  ∧ emitted s' = emitted s
  ∧ menuItemButtons s' = menuItemButtons s
  ∧ timers s' = timers s
  ∧ principalMenu s' = principalMenu s.
Proof.
  cbv zeta.
  destruct (decide (Element.interface target = HTMLButtonElement)) as [Hb | Hb];
    [|by rewrite handleMenuButtonKeyInput_not_button by exact Hb].
  destruct Hkey as [-> | ->].
  - rewrite handleMenuButtonKeyInput_ArrowUp by exact Hb. cbv zeta.
    apply (arrows_only_focus _ _ _ _ (with_defaultPrevented true s)).
  - rewrite handleMenuButtonKeyInput_ArrowDown by exact Hb. cbv zeta.
    apply (arrows_only_focus _ _ _ _ (with_defaultPrevented true s)).
Qed.

Lemma handleMenuButtonKeyInput_arrows_frame_witness :
  let s := opened_on [] in
  let s' := final (handleMenuButtonKeyInput props0 (Event.mk "ArrowDown" alpha) s) in
  returns (handleMenuButtonKeyInput props0 (Event.mk "ArrowDown" alpha) s) = false
  ∧ isMenuOpened s' = true ∧ clickListener s' = true ∧ emitted s' = [].
Proof.
  intros s s'.
  destruct (handleMenuButtonKeyInput_arrows_frame props0 s "ArrowDown" alpha (or_intror eq_refl))
    as (Ho & Hl & He & _).
  split; [reflexivity|]. split; [exact Ho|]. split; [exact Hl | exact He].
Defined.

(** ** Arrows in sequence *)

(** X8: with distinct button handles, ArrowDown on a handle followed by
    ArrowUp on the handle that took the focus puts the focus back on the
    first handle, and so does ArrowUp followed by ArrowDown, wherever the
    handle is in the set. *)
Theorem arrows_round_trip (props : Props.t) (s : State) (i : nat) (button : Element.t)
    (Hdistinct : NoDup (menuItemButtons s))
    (Hbuttons : Forall (λ b, Element.interface b = HTMLButtonElement) (menuItemButtons s))
    (Hat : menuItemButtons s !! i = Some button) :
  (∃ next s1 s2,
      handleMenuButtonKeyInput props (Event.mk "ArrowDown" button) s = Normal tt s1
      ∧ activeElement s1 = Some next
      ∧ handleMenuButtonKeyInput props (Event.mk "ArrowUp" next) s1 = Normal tt s2
      ∧ activeElement s2 = Some button)
  ∧ (∃ previous s1 s2,
        handleMenuButtonKeyInput props (Event.mk "ArrowUp" button) s = Normal tt s1
        ∧ activeElement s1 = Some previous
        ∧ handleMenuButtonKeyInput props (Event.mk "ArrowDown" previous) s1 = Normal tt s2
        ∧ activeElement s2 = Some button).
Proof.
  pose proof (lookup_lt_Some _ _ _ Hat) as Hlt.
  pose proof (indexOf_lookup _ _ _ Hdistinct Hat) as Hidx.
  assert (Hb : Element.interface button = HTMLButtonElement)
    by (eapply Forall_lookup_1 in Hbuttons; eauto).
  set (n := length (menuItemButtons s)) in *.
  split.
  - destruct (ArrowDown_from_index props s button i Hb Hidx Hlt) as (next & Hn & Hrun).
    fold n in Hn.
    set (s1 := with_activeElement (Some next) (with_defaultPrevented true s)) in *.
    assert (Hlt' : (i + 1) mod n < n) by (apply Nat.mod_upper_bound; lia).
    assert (Hnb : Element.interface next = HTMLButtonElement)
      by (eapply Forall_lookup_1 in Hbuttons; eauto).
    destruct (ArrowUp_from_index props s1 next ((i + 1) mod n) Hnb
                (indexOf_lookup _ _ _ Hdistinct Hn) Hlt') as (back & Hback & Hrun').
    change (length (menuItemButtons s1)) with n in Hback.
    change (menuItemButtons s1) with (menuItemButtons s) in Hback.
    replace (((i + 1) mod n + n - 1) mod n) with i in Hback.
    + rewrite Hat in Hback. injection Hback as <-.
      exists next, s1. eexists. by repeat split.
    + destruct (decide (i + 1 < n)).
      * rewrite (Nat.mod_small (i + 1)) by lia.
        replace (i + 1 + n - 1) with (i + 1 * n) by lia.
        rewrite Nat.Div0.mod_add. by rewrite Nat.mod_small by lia.
      * replace (i + 1) with n by lia. rewrite Nat.Div0.mod_same.
        rewrite Nat.mod_small by lia. lia.
  - destruct (ArrowUp_from_index props s button i Hb Hidx Hlt) as (previous & Hp & Hrun).
    fold n in Hp.
    set (s1 := with_activeElement (Some previous) (with_defaultPrevented true s)) in *.
    assert (Hlt' : (i + n - 1) mod n < n) by (apply Nat.mod_upper_bound; lia).
    assert (Hpb : Element.interface previous = HTMLButtonElement)
      by (eapply Forall_lookup_1 in Hbuttons; eauto).
    destruct (ArrowDown_from_index props s1 previous ((i + n - 1) mod n) Hpb
                (indexOf_lookup _ _ _ Hdistinct Hp) Hlt') as (back & Hback & Hrun').
    change (length (menuItemButtons s1)) with n in Hback.
    change (menuItemButtons s1) with (menuItemButtons s) in Hback.
    replace (((i + n - 1) mod n + 1) mod n) with i in Hback.
    + rewrite Hat in Hback. injection Hback as <-.
      exists previous, s1. eexists. by repeat split.
    + destruct i as [|j].
      * replace (0 + n - 1) with (n - 1) by lia.
        rewrite (Nat.mod_small (n - 1)) by lia.
        replace (n - 1 + 1) with n by lia. by rewrite Nat.Div0.mod_same.
      * replace (S j + n - 1) with (j + 1 * n) by lia.
        rewrite Nat.Div0.mod_add. rewrite (Nat.mod_small j) by lia.
        rewrite Nat.mod_small by lia. lia.
Qed.

Lemma arrows_round_trip_witness :
  let s := opened_on [alpha; beta; gamma] in
  (NoDup (menuItemButtons s)
   ∧ Forall (λ b, Element.interface b = HTMLButtonElement) (menuItemButtons s)
   ∧ menuItemButtons s !! 2 = Some gamma)
  ∧ ∃ next s1 s2,
      handleMenuButtonKeyInput props0 (Event.mk "ArrowDown" gamma) s = Normal tt s1
      ∧ activeElement s1 = Some next
      ∧ handleMenuButtonKeyInput props0 (Event.mk "ArrowUp" next) s1 = Normal tt s2
      ∧ activeElement s2 = Some gamma.
Proof.
  intros s.
  assert (Hdistinct : NoDup (menuItemButtons s)).
  { apply (bool_decide_unpack _). vm_compute. exact I. }
  assert (Hbuttons : Forall (λ b, Element.interface b = HTMLButtonElement)
                            (menuItemButtons s)).
  { repeat constructor. }
  split; [by repeat split|].
  exact (proj1 (arrows_round_trip props0 s 2 gamma Hdistinct Hbuttons eq_refl)).
Defined.

Lemma times_S (n : nat) (m : M unit) (s : State) :
  times (S n) m s =
    match m s with Normal _ s' => times n m s' | Throw e s' => Throw e s' end.
Proof. reflexivity. Qed.

(** X9: with [N] distinct button handles and the focus on the handle at
    index [i], [k] presses of ArrowDown, each on the handle that holds the
    focus, return with the focus on the handle at index [(i + k) mod N];
    [N] presses bring the focus back to where it started. *)
Theorem ArrowDown_times (props : Props.t) (k : nat) (s : State) (i : nat) (button : Element.t)
    (Hdistinct : NoDup (menuItemButtons s))
    (Hbuttons : Forall (λ b, Element.interface b = HTMLButtonElement) (menuItemButtons s))
    (Hat : menuItemButtons s !! i = Some button)
    (Hfocus : activeElement s = Some button) :
  let N := length (menuItemButtons s) in
  (∃ s', times k (keyOnFocused props "ArrowDown") s = Normal tt s'
         ∧ menuItemButtons s' = menuItemButtons s
         ∧ activeElement s' = menuItemButtons s !! ((i + k) mod N))
  ∧ (∃ s', times N (keyOnFocused props "ArrowDown") s = Normal tt s'
           ∧ activeElement s' = Some button).
Proof.
  cbv zeta.
  assert (Hgen : ∀ k s i button,
            NoDup (menuItemButtons s) →
            Forall (λ b, Element.interface b = HTMLButtonElement) (menuItemButtons s) →
            menuItemButtons s !! i = Some button →
            activeElement s = Some button →
            ∃ s', times k (keyOnFocused props "ArrowDown") s = Normal tt s'
                  ∧ menuItemButtons s' = menuItemButtons s
                  ∧ activeElement s' =
                      menuItemButtons s !! ((i + k) mod length (menuItemButtons s))).
  { clear. intros k. induction k as [|k IH]; intros s i button Hd Hbs Hat Hf.
    - exists s. split; [reflexivity|]. split; [reflexivity|].
      pose proof (lookup_lt_Some _ _ _ Hat).
      rewrite Nat.add_0_r, Nat.mod_small by lia. congruence.
    - pose proof (lookup_lt_Some _ _ _ Hat) as Hlt.
      assert (Hb : Element.interface button = HTMLButtonElement)
        by (eapply Forall_lookup_1 in Hbs; eauto).
      destruct (ArrowDown_from_index props s button i Hb (indexOf_lookup _ _ _ Hd Hat) Hlt)
        as (next & Hn & Hrun).
      rewrite times_S. unfold keyOnFocused at 1. rewrite bind_gets, Hf, Hrun.
      set (s1 := with_activeElement (Some next) (with_defaultPrevented true s)).
      destruct (IH s1 ((i + 1) mod length (menuItemButtons s)) next Hd Hbs Hn eq_refl)
        as (s' & Hrun' & Hb' & Ha').
      exists s'. split; [exact Hrun'|]. split; [exact Hb'|].
      rewrite Ha'. change (menuItemButtons s1) with (menuItemButtons s).
      rewrite Nat.Div0.add_mod_idemp_l. f_equal. f_equal. lia. }
  split; [by eapply Hgen|].
  destruct (Hgen (length (menuItemButtons s)) s i button Hdistinct Hbuttons Hat Hfocus)
    as (s' & Hrun & _ & Ha).
  exists s'. split; [exact Hrun|].
  pose proof (lookup_lt_Some _ _ _ Hat).
  rewrite Ha. replace (i + length (menuItemButtons s))
    with (i + 1 * length (menuItemButtons s)) by lia.
  rewrite Nat.Div0.mod_add, Nat.mod_small by lia. exact Hat.
Qed.

Lemma ArrowDown_times_witness :
  let s := with_activeElement (Some beta) (opened_on [alpha; beta; gamma]) in
  (NoDup (menuItemButtons s)
   ∧ Forall (λ b, Element.interface b = HTMLButtonElement) (menuItemButtons s)
   ∧ menuItemButtons s !! 1 = Some beta
   ∧ activeElement s = Some beta)
  ∧ (∃ s', times 5 (keyOnFocused props0 "ArrowDown") s = Normal tt s'
           ∧ menuItemButtons s' = menuItemButtons s
           ∧ activeElement s' = Some alpha)
  ∧ (∃ s', times 3 (keyOnFocused props0 "ArrowDown") s = Normal tt s'
           ∧ activeElement s' = Some beta).
Proof.
  intros s.
  assert (Hdistinct : NoDup (menuItemButtons s)).
  { apply (bool_decide_unpack _). vm_compute. exact I. }
  assert (Hbuttons : Forall (λ b, Element.interface b = HTMLButtonElement)
                            (menuItemButtons s)).
  { repeat constructor. }
  split; [by repeat split|].
  exact (ArrowDown_times props0 5 s 1 beta Hdistinct Hbuttons eq_refl eq_refl).
Defined.

(** ** Item classes *)

(** X10: the class list has one entry per option; among the rendered
    items the first-item class is on index 0 only, the last-item class on
    the last index only (a single option carries both), and the bold class
    is on exactly the options equal to the current value, and only in
    filter mode. *)
Theorem itemButtonClasses_edges (props : Props.t) (i : nat) (c : ItemButtonClass)
    (Hc : itemButtonClasses props !! i = Some c) :
  length (itemButtonClasses props) = length (Props.options props)
  ∧ dropdown__item_button c = true
  ∧ (dropdown__item_button__first c = true ↔ i = 0)
  ∧ (dropdown__item_button__last c = true ↔ i + 1 = length (Props.options props))
  ∧ (dropdown__item_button__bold c = true ↔
       Props.isFilter props = true
       ∧ Props.options props !! i = Some (Props.modelValue props)).
Proof.
  unfold itemButtonClasses in *. split; [apply length_imap|].
  rewrite list_lookup_imap in Hc.
  destruct (Props.options props !! i) as [option|] eqn:Hoption; [|done].
  pose proof (lookup_lt_Some _ _ _ Hoption) as Hlt.
  injection Hc as <-. cbn [getItemButtonClass dropdown__item_button
    dropdown__item_button__first dropdown__item_button__last
    dropdown__item_button__bold].
  split; [reflexivity|]. split; [rewrite Z.eqb_eq; lia|].
  split; [rewrite Z.eqb_eq; lia|].
  rewrite andb_true_iff. unfold isSelectedOption. rewrite String.eqb_eq.
  split; [intros [Hf ->]; by split | intros [Hf Heq]; split; [exact Hf | congruence]].
Qed.

Lemma itemButtonClasses_edges_witness :
  let c := getItemButtonClass props0 2 "Gamma" in
  itemButtonClasses props0 !! 2 = Some c
  ∧ dropdown__item_button__first c = false
  ∧ dropdown__item_button__last c = true
  ∧ dropdown__item_button__bold c = false.
Proof.
  intros c. split; [reflexivity|].
  destruct (itemButtonClasses_edges props0 2 c eq_refl) as (_ & _ & Hf & Hl & Hb).
  split.
  { destruct (dropdown__item_button__first c); [|reflexivity].
    discriminate (proj1 Hf eq_refl). }
  split; [apply Hl; reflexivity|].
  destruct (dropdown__item_button__bold c); [|reflexivity].
  discriminate (proj1 (proj1 Hb eq_refl)).
Defined.

(** ** What a commit emits *)

(** Every click handled by [handleMenuButtonClick], trigger mounted or
    not: it returns with the menu closed, and the events it adds are the
    guarded value change followed by what the refocus emits. *)
Lemma handleMenuButtonClick_emits (props : Props.t) (s : State) (event : Event.t) :
  let target := Event.target event in
  ∃ s', handleMenuButtonClick props event s = Normal tt s'
        ∧ isMenuOpened s' = false
        ∧ emitted s' =
            emitted s
            ++ (if Element.instanceof target HTMLButtonElement
                   && JS.truthy (Element.textContent target)
                then [update_modelValue (JS.trim (Element.textContent target))]
                else [])
            ++ match principalMenu s with
               | Some trigger => focusinEmits props (activeElement s) trigger
               | None => []
               end.
Proof.
  intros target. rewrite handleMenuButtonClick_unfold. fold target.
  destruct (Element.instanceof target HTMLButtonElement
            && JS.truthy (Element.textContent target)).
  - destruct (closeMenu_focusPrincipalMenu_returns props
               (with_emitted
                  (emitted s ++ [update_modelValue (JS.trim (Element.textContent target))]) s))
      as (s' & Hrun & Ho & _ & _ & He & _).
    cbn [principalMenu activeElement emitted with_emitted] in He.
    rewrite <- app_assoc in He. exists s'. by repeat split.
  - destruct (closeMenu_focusPrincipalMenu_returns props s)
      as (s' & Hrun & Ho & _ & _ & He & _).
    exists s'. by repeat split.
Qed.

Lemma valueChanges_refocus props (s : State) :
  valueChanges match principalMenu s with
               | Some trigger => focusinEmits props (activeElement s) trigger
               | None => []
               end = [].
Proof. destruct (principalMenu s); [apply valueChanges_focusinEmits | reflexivity]. Qed.

(** X11: the guard of the emit looks at the text before it is trimmed: a
    click on a button whose text is not empty but all white space emits
    one [update:modelValue] whose payload is the empty string, followed
    only by what the refocus of the trigger emits. *)
Theorem handleMenuButtonClick_blank_text (props : Props.t) (s : State) (event : Event.t)
    (Hbutton : Element.interface (Event.target event) = HTMLButtonElement)
    (Htext : Element.textContent (Event.target event) ≠ "")
    (Hblank : JS.allWhiteSpace (Element.textContent (Event.target event)) = true) :
  ∃ s', handleMenuButtonClick props event s = Normal tt s'
        ∧ isMenuOpened s' = false
        ∧ valueChanges (emitted s') = valueChanges (emitted s) ++ [""]
        ∧ emitted s' =
            emitted s ++ [update_modelValue ""]
            ++ match principalMenu s with
               | Some trigger => focusinEmits props (activeElement s) trigger
               | None => []
               end.
Proof.
  destruct (handleMenuButtonClick_emits props s event) as (s' & Hrun & Ho & He).
  cbv zeta in He. unfold Element.instanceof in He.
  rewrite bool_decide_eq_true_2 in He by exact Hbutton.
  rewrite (trim_blank _ Hblank) in He.
  assert (JS.truthy (Element.textContent (Event.target event)) = true) as Htruthy
    by (destruct (Element.textContent (Event.target event)); done).
  rewrite Htruthy in He. cbn [andb] in He.
  exists s'. split; [exact Hrun|]. split; [exact Ho|]. split; [|exact He].
  by rewrite He, !valueChanges_app, valueChanges_refocus, app_nil_r.
Qed.

Lemma handleMenuButtonClick_blank_text_witness :
  let spaces := Element.mk 2 HTMLButtonElement "  " in
  (Element.interface spaces = HTMLButtonElement
   ∧ Element.textContent spaces ≠ ""
   ∧ JS.allWhiteSpace (Element.textContent spaces) = true)
  ∧ ∃ s', handleMenuButtonClick props0 (Event.mk "" spaces) (opened_on [spaces]) = Normal tt s'
          ∧ isMenuOpened s' = false
          ∧ emitted s' = [update_modelValue ""].
Proof.
  intros spaces.
  assert (Htext : Element.textContent spaces ≠ "") by discriminate.
  split; [by repeat split|].
  destruct (handleMenuButtonClick_blank_text props0 (opened_on [spaces])
              (Event.mk "" spaces) eq_refl Htext eq_refl)
    as (s' & Hrun & Ho & _ & He).
  exists s'. by repeat split.
Defined.

(** X12: a click on a button whose text is an option with white space
    around it, as the template lays it out, emits the trimmed option,
    followed only by what the refocus of the trigger emits.  Once that
    payload is the current value, the option is marked selected exactly
    when trimming leaves it as it is: an option with white space at either
    end is never shown as selected after it was chosen. *)
Theorem commit_then_selected (props : Props.t) (s : State) (event : Event.t)
    (option p q : string)
    (Hbutton : Element.interface (Event.target event) = HTMLButtonElement)
    (Hp : JS.allWhiteSpace p = true)
    (Hq : JS.allWhiteSpace q = true)
    (Htext : Element.textContent (Event.target event) = p +:+ option +:+ q)
    (Hshown : Element.textContent (Event.target event) ≠ "") :
  ∃ s', handleMenuButtonClick props event s = Normal tt s'
        ∧ valueChanges (emitted s') = valueChanges (emitted s) ++ [JS.trim option]
        ∧ emitted s' =
            emitted s ++ [update_modelValue (JS.trim option)]
            ++ match principalMenu s with
               | Some trigger => focusinEmits props (activeElement s) trigger
               | None => []
               end
        ∧ ∀ props' : Props.t,
            Props.modelValue props' = JS.trim option →
            (isSelectedOption props' option = true ↔ JS.trim option = option).
Proof.
  destruct (handleMenuButtonClick_emits props s event) as (s' & Hrun & Ho & He).
  cbv zeta in He. unfold Element.instanceof in He.
  rewrite bool_decide_eq_true_2 in He by exact Hbutton.
  assert (JS.truthy (Element.textContent (Event.target event)) = true) as Htruthy
    by (destruct (Element.textContent (Event.target event)); done).
  rewrite Htruthy, Htext, (trim_padded p option q Hp Hq) in He. cbn [andb] in He.
  exists s'. split; [exact Hrun|]. split.
  { by rewrite He, !valueChanges_app, valueChanges_refocus, app_nil_r. }
  split; [exact He|].
  intros props' Hvalue. unfold isSelectedOption. rewrite String.eqb_eq, Hvalue.
  split; congruence.
Qed.

Lemma commit_then_selected_witness :
  let padded := renderButton 0 " Alpha" in
  (Element.interface padded = HTMLButtonElement
   ∧ JS.allWhiteSpace "" = true ∧ JS.allWhiteSpace " " = true
   ∧ Element.textContent padded = "" +:+ " Alpha" +:+ " "
   ∧ Element.textContent padded ≠ "")
  ∧ ∃ s', handleMenuButtonClick props0 (Event.mk "" padded) (opened_on [padded]) = Normal tt s'
          ∧ emitted s' = [update_modelValue "Alpha"]
          ∧ isSelectedOption (props_with_value "Alpha") " Alpha" = false.
Proof.
  intros padded.
  assert (Hshown : Element.textContent padded ≠ "") by discriminate.
  split; [by repeat split|].
  destruct (commit_then_selected props0 (opened_on [padded]) (Event.mk "" padded)
              " Alpha" "" " " eq_refl eq_refl eq_refl eq_refl Hshown)
    as (s' & Hrun & _ & He & Hsel).
  exists s'. split; [exact Hrun|]. split; [exact He|].
  destruct (isSelectedOption (props_with_value "Alpha") " Alpha") eqn:Hs; [|reflexivity].
  apply (Hsel (props_with_value "Alpha") eq_refl) in Hs. discriminate Hs.
Defined.

(** ** Runs *)

(** X13: from a state in which the listener is registered only while the
    menu is open, every run in which each timer fires while the menu is
    still open ends, normally or in an exception, in such a state: closed
    means no listener. *)
Theorem run_keeps_tidy (props : Props.t) (inputs : list Input) (s : State)
    (Htidy : tidy s)
    (Htimely : timely props inputs s) :
  tidy (final (run props inputs s)).
Proof.
  revert s Htidy Htimely. induction inputs as [|i rest IH]; intros s Htidy Htimely.
  - exact Htidy.
  - destruct Htimely as [Hi Hrest].
    pose proof (react_keeps_tidy props i s Htidy Hi) as Hstep.
    cbn [run]. unfold mbind, M_bind.
    destruct (react props i s) as [[] s'|e s']; [|exact Hstep].
    by apply IH.
Qed.

Lemma run_keeps_tidy_witness :
  let inputs := [ClickTrigger; Timeout; KeyMenu "ArrowDown" alpha;
                 ClickDocument trigger0; ClickTrigger; Timeout; ClickMenu beta] in
  let s' := final (run props0 inputs (mounted trigger0)) in
  (tidy (mounted trigger0) ∧ timely props0 inputs (mounted trigger0))
  ∧ tidy s' ∧ isMenuOpened s' = false ∧ clickListener s' = false.
Proof.
  intros inputs s'.
  assert (Htidy : tidy (mounted trigger0)) by (intros H; discriminate H).
  assert (Htimely : timely props0 inputs (mounted trigger0)).
  { vm_compute. repeat split; try reflexivity; intros H; discriminate H. }
  split; [by split|].
  split; [exact (run_keeps_tidy props0 inputs (mounted trigger0) Htidy Htimely)|].
  by vm_compute.
Defined.

(** ** States between events *)

Lemma since_refl (s : State) : since s s.
Proof. unfold since. by repeat split; [..|right]. Qed.

Lemma calm_ret {A : Type} (a : A) : calm (mret a).
Proof. intros s0 s Hs. by exists a, s. Qed.

Lemma calm_skip : calm skip.
Proof. apply calm_ret. Qed.

Lemma calm_gets {A : Type} (f : State → A) : calm (gets f).
Proof. intros s0 s Hs. by exists (f s), s. Qed.

Lemma calm_bind {A B : Type} (m : M A) (k : A → M B) :
  calm m → (∀ a, calm (k a)) → calm (m ≫= k).
Proof.
  intros Hm Hk s0 s Hs. destruct (Hm s0 s Hs) as (a & h & Hrun & Hh).
  unfold mbind, M_bind. rewrite Hrun. by apply Hk.
Qed.

Lemma calm_when (b : bool) (m : M unit) : calm m → calm (when b m).
Proof. intros Hm. destruct b; [exact Hm | apply calm_skip]. Qed.

Lemma calm_modify (f : State → State) : same_core f → calm (modify f).
Proof.
  intros Hf s0 s (Hi & Hb & Hq). exists tt, (f s). split; [reflexivity|].
  unfold since. destruct (Hf s) as (-> & -> & -> & ->). by repeat split.
Qed.

Lemma calm_isMenuOpened_set (v : bool) : calm (isMenuOpened_set v).
Proof.
  intros s0 s (Hi & Hb & Hq). unfold isMenuOpened_set, modify.
  eexists tt, _. split; [reflexivity|].
  case_bool_decide; [by repeat split|].
  split; [exact Hi|]. split; [exact Hb|]. by left.
Qed.

Lemma same_core_activeElement v : same_core (with_activeElement v).
Proof. by intros s. Qed.
Lemma same_core_defaultPrevented v : same_core (with_defaultPrevented v).
Proof. by intros s. Qed.
Lemma same_core_clickListener v : same_core (with_clickListener v).
Proof. by intros s. Qed.
Lemma same_core_emitted (f : State → list Emit) :
  same_core (λ s, with_emitted (f s) s).
Proof. by intros s. Qed.
Lemma same_core_timers (f : State → nat) :
  same_core (λ s, with_timers (f s) s).
Proof. by intros s. Qed.
Lemma same_core_timers_value v : same_core (with_timers v).
Proof. by intros s. Qed.

Create HintDb calm.
#[export] Hint Resolve calm_ret calm_skip calm_gets calm_bind calm_when
  calm_modify calm_isMenuOpened_set same_core_activeElement
  same_core_defaultPrevented same_core_clickListener same_core_emitted
  same_core_timers same_core_timers_value : calm.
#[export] Hint Extern 2 (calm (match ?x with _ => _ end)) => destruct x : calm.

(** Solves [calm m] for a listener that cannot throw. *)
Ltac calm :=
  unfold handlePrincipalButtonClick, handleMenuButtonClick, document_click,
    closeMenuOnOutsideClick, onBeforeUnmount_callback, setTimeout_callback,
    focusPrincipalMenu, principalMenu_focus, handlePrincipalButtonFocusIn,
    closeMenu, openMenu, document_addEventListener,
    document_removeEventListener, emits, preventDefault, focus;
  auto 40 with calm.

Lemma calm_handlePrincipalButtonClick : calm handlePrincipalButtonClick.
Proof. calm. Qed.

Lemma calm_handleMenuButtonClick props event : calm (handleMenuButtonClick props event).
Proof. calm. Qed.

Lemma calm_document_click event : calm (document_click event).
Proof. calm. Qed.

Lemma calm_closeMenu_focusPrincipalMenu props : calm (closeMenu;; focusPrincipalMenu props).
Proof. calm. Qed.

Lemma calm_closeMenu : calm closeMenu.
Proof. calm. Qed.

Lemma calm_openMenu : calm openMenu.
Proof. calm. Qed.

Lemma calm_principalMenu_focus props element : calm (principalMenu_focus props element).
Proof. calm. Qed.

(** The flush settles whatever a listener left. *)
Lemma flushJobs_settles (props : Props.t) (s h : State) :
  settled props s → since s h → settled props (final (flushJobs props h)).
Proof.
  intros [Hq Hs] (Hi & Hb & Hh).
  destruct (effectQueued h) eqn:Hqh.
  - destruct (isMenuOpened h) eqn:Hopen.
    + destruct (flushJobs_opened props h Hqh Hopen)
        as (s' & Hrun & Ho' & Hq' & Hi' & Hb' & _).
      rewrite Hrun. unfold final, settled. by rewrite Ho', Hq', Hi', Hb'.
    + rewrite (flushJobs_closed props h Hqh Hopen). unfold final, settled.
      cbn [effectQueued isMenuOpened menuItems with_menuItems with_effectQueued].
      by rewrite Hopen.
  - destruct Hh as [Hh | [Hsame Hopen]]; [discriminate Hh|].
    rewrite (flushJobs_idle props h Hqh). unfold final, settled.
    by rewrite Hqh, Hopen, Hi, Hb.
Qed.

Lemma settles_after (props : Props.t) (m : M unit) :
  calm m → keeps (settled props) (m;; flushJobs props).
Proof.
  intros Hm s Hs. destruct (Hm s s (since_refl s)) as ([] & h & Hrun & Hh).
  unfold mbind, M_bind. rewrite Hrun. by eapply flushJobs_settles.
Qed.

Lemma keeps_settled_modify (props : Props.t) (f : State → State) :
  same_core f → keeps (settled props) (modify f).
Proof.
  intros Hf s Hs. unfold modify, final, settled in *.
  by destruct (Hf s) as (-> & -> & -> & ->).
Qed.

#[export] Hint Resolve keeps_settled_modify same_core_activeElement
  same_core_defaultPrevented same_core_clickListener same_core_emitted
  same_core_timers same_core_timers_value : keeps.

Lemma arrows_core (c1 c2 : bool) (k1 k2 : Z) (s : State) :
  let s' := final ((when c1 (menuItemButtons_focus k1);;
                    when c2 (menuItemButtons_focus k2)) s) in
  menuItems s' = menuItems s
  ∧ menuItemButtons s' = menuItemButtons s
  ∧ effectQueued s' = effectQueued s
  ∧ isMenuOpened s' = isMenuOpened s.
Proof.
  cbv zeta. unfold when, menuItemButtons_focus, focus, throw, skip, modify, gets,
    mbind, M_bind, mret, M_ret.
  destruct c1, c2; cbn;
    repeat (match goal with
            | |- context [JS.at_index ?l ?k] => destruct (JS.at_index l k); cbn
            end);
    by repeat split.
Qed.

(** A key on the menu, then the flush. *)
Lemma KeyMenu_settles (props : Props.t) (key : string) (target : Element.t) :
  keeps (settled props) (handleMenuButtonKeyInput props (Event.mk key target);;
                         flushJobs props).
Proof.
  intros s Hs.
  assert (Hcalm : ∀ m : M unit, calm m →
            handleMenuButtonKeyInput props (Event.mk key target) s = m s →
            settled props
              (final ((handleMenuButtonKeyInput props (Event.mk key target);;
                       flushJobs props) s))).
  { intros m Hm Heq. pose proof (settles_after props m Hm s Hs) as Hafter.
    unfold mbind, M_bind in *. by rewrite Heq. }
  destruct (decide (Element.interface target = HTMLButtonElement)) as [Hb | Hb];
    [|apply (Hcalm skip calm_skip);
      by apply handleMenuButtonKeyInput_not_button].
  assert (Harrow : ∀ c1 c2 k1 k2,
            handleMenuButtonKeyInput props (Event.mk key target) s =
              (when c1 (menuItemButtons_focus k1);; when c2 (menuItemButtons_focus k2))
                (with_defaultPrevented true s) →
            settled props
              (final ((handleMenuButtonKeyInput props (Event.mk key target);;
                       flushJobs props) s))).
  { intros c1 c2 k1 k2 Heq.
    destruct (arrows_core c1 c2 k1 k2 (with_defaultPrevented true s))
      as (Hi & Hbs & Hq & Ho).
    unfold mbind at 1, M_bind at 1. rewrite Heq.
    destruct ((when c1 (menuItemButtons_focus k1);; when c2 (menuItemButtons_focus k2))
                (with_defaultPrevented true s)) as [[] h|e h];
      cbn [final] in Hi, Hbs, Hq, Ho.
    - apply (flushJobs_settles props s h Hs). unfold since.
      split; [exact Hi|]. split; [exact Hbs|]. right. by split.
    - destruct Hs as [Hqs Hss]. unfold final, settled.
      by rewrite Hq, Ho, Hi, Hbs. }
  destruct (decide (key = "ArrowUp")) as [-> | Hu].
  { eapply Harrow. by apply handleMenuButtonKeyInput_ArrowUp. }
  destruct (decide (key = "ArrowDown")) as [-> | Hd].
  { eapply Harrow. by apply handleMenuButtonKeyInput_ArrowDown. }
  destruct (decide (key = "Escape")) as [-> | He].
  { apply (Hcalm _ (calm_closeMenu_focusPrincipalMenu props)).
    by apply handleMenuButtonKeyInput_Escape. }
  destruct (decide (key = "Tab")) as [-> | Ht].
  { apply (Hcalm _ calm_closeMenu). by apply handleMenuButtonKeyInput_Tab. }
  apply (Hcalm skip calm_skip). by apply handleMenuButtonKeyInput_other.
Qed.

Lemma click_settles (props : Props.t) (listener : M unit) (event : Event.t) :
  calm listener →
  keeps (settled props)
    (listener;; flushJobs props;; document_click event;; flushJobs props).
Proof.
  intros Hl s Hs.
  rewrite (bind_assoc listener (λ _, flushJobs props)
             (λ _, document_click event;; flushJobs props) s).
  apply (keeps_bind (settled props) (listener;; flushJobs props)
           (λ _, document_click event;; flushJobs props)); [| |exact Hs].
  - by apply settles_after.
  - intros _. apply settles_after, calm_document_click.
Qed.

(** Every input leaves the component settled. *)
Lemma react_settles (props : Props.t) (i : Input) : keeps (settled props) (react props i).
Proof.
  unfold react. apply keeps_bind; [auto with keeps|]. intros _.
  destruct i.
  - unfold principalMenu_focus, handlePrincipalButtonFocusIn, emits, focus.
    auto 30 with keeps.
  - apply keeps_bind; [apply keeps_gets|]. intros [element|]; [|apply keeps_skip].
    apply click_settles, calm_handlePrincipalButtonClick.
  - apply settles_after, calm_openMenu.
  - apply click_settles, calm_handleMenuButtonClick.
  - apply KeyMenu_settles.
  - unfold focus. auto with keeps.
  - apply settles_after, calm_document_click.
  - unfold setTimeout_callback, document_addEventListener. auto 30 with keeps.
  - unfold onBeforeUnmount_callback, document_removeEventListener. auto with keeps.
Qed.

Lemma run_settles (props : Props.t) (inputs : list Input) :
  keeps (settled props) (run props inputs).
Proof.
  induction inputs as [|i rest IH]; [apply keeps_skip|].
  cbn [run]. apply keeps_bind; [apply react_settles | intros _; exact IH].
Qed.

Lemma mounted_settled (props : Props.t) (trigger : Element.t) :
  settled props (mounted trigger).
Proof. by split. Qed.

(** In every state a run reaches, each button the menu shows is a handle
    of the set: with an empty handle set no item is shown. *)
Lemma reached_settled (props : Props.t) (trigger : Element.t) (inputs : list Input) :
  settled props (final (run props inputs (mounted trigger))).
Proof. apply run_settles, mounted_settled. Qed.

(** ** An arrow key whose target is not a handle *)



(** ** A click on the trigger, as a whole *)

(** X1: a click on the trigger, from its handler through the flushes to
    the listener on the document, always returns with no listener
    registered and nothing emitted.  It closes an open menu, leaving
    focus, handle set and timers as they were.  It opens a closed menu
    when no listener was registered: the handle set is then that of the
    rendered buttons, the focus is on the first of them and a timer is
    pending.  When a listener was registered on the closed menu, the menu
    the handler opens is closed again by that listener within the same
    click. *)
Theorem ClickTrigger_toggles (props : Props.t) (s : State) (trigger : Element.t)
    (Htrigger : principalMenu s = Some trigger)
    (Hinput : Element.interface trigger ≠ HTMLButtonElement) :
  ∃ s', react props ClickTrigger s = Normal tt s'
        ∧ isMenuOpened s' = negb (isMenuOpened s) && negb (clickListener s)
        ∧ clickListener s' = false
        ∧ effectQueued s' = false
        ∧ emitted s' = emitted s
        ∧ (isMenuOpened s = true →
             activeElement s' = activeElement s
             ∧ menuItemButtons s' = menuItemButtons s
             ∧ timers s' = timers s
             ∧ menuItems s' = [])
        ∧ (isMenuOpened s' = true →
             menuItems s' = imap (renderMenuItem props) (Props.options props)
             ∧ menuItemButtons s' = imap renderButton (Props.options props)
             ∧ (∀ (first : string) (rest : list string),
                   Props.options props = first :: rest →
                   activeElement s' = Some (renderButton 0 first))
             ∧ (timers s < timers s')%nat).
Proof.
  unfold react. rewrite bind_modify, bind_gets.
  set (s0 := with_defaultPrevented false s).
  change (principalMenu s0) with (principalMenu s). rewrite Htrigger.
  rewrite (bind_assoc handlePrincipalButtonClick (λ _, flushJobs props)
             (λ _, document_click (Event.mk "" trigger);; flushJobs props) s0).
  unfold mbind at 1, M_bind at 1.
  unfold mbind at 1, M_bind at 1, handlePrincipalButtonClick.
  rewrite bind_gets. change (isMenuOpened s0) with (isMenuOpened s).
  change (clickListener s) with (clickListener s0).
  change (emitted s) with (emitted s0).
  change (activeElement s) with (activeElement s0).
  change (menuItemButtons s) with (menuItemButtons s0).
  change (timers s) with (timers s0).
  destruct (isMenuOpened s) eqn:Hopen.
  - (* the menu was open: the handler closes it *)
    rewrite (closeMenu_opened s0 Hopen).
    rewrite flushJobs_closed by reflexivity.
    unfold document_click. rewrite <- bind_assoc, bind_gets.
    cbn [clickListener with_menuItems with_effectQueued with_clickListener
         with_isMenuOpened].
    change ((when false _;; flushJobs props) ?h) with (flushJobs props h).
    rewrite flushJobs_idle by reflexivity.
    eexists. split; [reflexivity|].
    cbn [isMenuOpened clickListener effectQueued emitted activeElement
         menuItemButtons timers menuItems with_menuItems
         with_effectQueued with_clickListener with_isMenuOpened].
    repeat split; discriminate.
  - (* the menu was closed: the handler opens it *)
    destruct (openMenu_flushJobs props s0 Hopen)
      as (s1 & Hrun & Ho1 & Hq1 & Hi1 & Hb1 & Ha1 & Ht1 & Hl1 & He1 & _).
    cbv zeta in Hi1, Hb1, Ha1, Ht1.
    unfold mbind, M_bind in Hrun. unfold mbind, M_bind.
    destruct (openMenu s0) as [[] h|]; [|discriminate Hrun].
    rewrite Hrun. unfold document_click.
    rewrite bind_gets, Hl1. destruct (clickListener s0) eqn:Hleak.
    + (* a listener was registered: it closes the menu again *)
      unfold when at 1, closeMenuOnOutsideClick. rewrite bind_gets.
      cbn [Event.target].
      unfold Element.instanceof. rewrite bool_decide_eq_false_2 by exact Hinput.
      cbn [andb negb when].
      rewrite (closeMenu_opened s1 Ho1).
      rewrite flushJobs_closed by reflexivity.
      eexists. split; [reflexivity|].
      cbn [isMenuOpened clickListener effectQueued emitted with_menuItems
           with_effectQueued with_clickListener with_isMenuOpened].
      repeat split; try discriminate. exact He1.
    + unfold when at 1, skip, mret, M_ret.
      rewrite flushJobs_idle by exact Hq1.
      exists s1. split; [reflexivity|]. split; [exact Ho1|].
      split; [by rewrite Hl1|]. split; [exact Hq1|]. split; [exact He1|].
      split; [discriminate|]. intros _.
      split; [exact Hi1|]. split; [exact Hb1|]. split.
      * intros first rest Hoptions. rewrite Ha1, Hoptions. reflexivity.
      * rewrite Ht1. case_bool_decide; lia.
Qed.

Lemma ClickTrigger_toggles_witness :
  let leaked := final (run props0 [ClickTrigger; KeyMenu "Escape" alpha; Timeout]
                           (mounted trigger0)) in
  (principalMenu (mounted trigger0) = Some trigger0
   ∧ Element.interface trigger0 ≠ HTMLButtonElement)
  ∧ (∃ s', react props0 ClickTrigger (mounted trigger0) = Normal tt s'
           ∧ isMenuOpened s' = true ∧ clickListener s' = false
           ∧ activeElement s' = Some alpha)
  ∧ (∃ s', react props0 ClickTrigger leaked = Normal tt s'
           ∧ isMenuOpened s' = false ∧ clickListener s' = false).
Proof.
  intros leaked.
  assert (Hinput : Element.interface trigger0 ≠ HTMLButtonElement) by discriminate.
  split; [by split|]. split.
  - destruct (ClickTrigger_toggles props0 (mounted trigger0) trigger0 eq_refl Hinput)
      as (s' & Hrun & Ho & Hl & _ & _ & _ & Hopened).
    exists s'. split; [exact Hrun|]. split; [exact Ho|]. split; [exact Hl|].
    destruct (Hopened Ho) as (_ & _ & Hfocus & _).
    exact (Hfocus "Alpha" ["Beta"; "Gamma"] eq_refl).
  - destruct (ClickTrigger_toggles props0 leaked trigger0 eq_refl Hinput)
      as (s' & Hrun & Ho & Hl & _).
    exists s'. by repeat split.
Defined.
